(** * InfoMark: account handlers, metrics registry and the grading pipeline

    A shallow embedding of
    - [api/app/metrics.go]  (the Prometheus counters and their registration),
    - [api/app/account.go]  ([AccountResource.CreateHandler] and
      [AccountResource.EditHandler]),
    and of the result classifier and result reporter of the grading
    pipeline, as the specification describes them. *)

From Stdlib Require Import ZArith Ascii String List Lia.
From stdpp Require Import base option list gmap strings pretty.

Local Open Scope string_scope.

(** ** Results of fallible Go code

    A Go call either returns normally, or panics.  A Go function that
    returns [(v, err)] is a function into [V + Error]: [inl v] when [err] is
    nil, [inr err] otherwise; one that returns only [err] is a function into
    [option Error]. *)

Inductive result (A : Type) : Type :=
| Ok (a : A)
| Panic (msg : string).
Arguments Ok {A} a.
Arguments Panic {A} msg.

Definition rbind {A B} (r : result A) (k : A -> result B) : result B :=
  match r with
  | Ok a => k a
  | Panic m => Panic m
  end.

#[global] Instance result_ret : MRet result := fun A a => Ok a.
#[global] Instance result_bind : MBind result := fun A B k r => rbind r k.

(** ** The part of the Prometheus client that [metrics.go] calls *)

Module Prometheus.

Record CounterOpts := mkCounterOpts {
  Namespace : string;
  Subsystem : string;
  Name : string;
  Help : string
}.

(** [prometheus.BuildFQName]: the non-empty components joined by "_";
    an empty name gives the empty string. *)
Definition BuildFQName (namespace subsystem name : string) : string :=
  if String.eqb name "" then ""
  else if negb (String.eqb namespace "") && negb (String.eqb subsystem "")
    then namespace +:+ "_" +:+ subsystem +:+ "_" +:+ name
  else if negb (String.eqb namespace "")
    then namespace +:+ "_" +:+ name
  else if negb (String.eqb subsystem "")
    then subsystem +:+ "_" +:+ name
  else name.

Definition is_alpha (c : ascii) : bool :=
  let n := nat_of_ascii c in
  ((65 <=? n)%nat && (n <=? 90)%nat) || ((97 <=? n)%nat && (n <=? 122)%nat).

Definition is_digit (c : ascii) : bool :=
  let n := nat_of_ascii c in (48 <=? n)%nat && (n <=? 57)%nat.

Definition is_underscore (c : ascii) : bool := (nat_of_ascii c =? 95)%nat.
Definition is_colon (c : ascii) : bool := (nat_of_ascii c =? 58)%nat.

Fixpoint all_chars (p : ascii -> bool) (s : string) : bool :=
  match s with
  | EmptyString => true
  | String c s' => p c && all_chars p s'
  end.

(** [model.IsValidMetricName]: [[a-zA-Z_:][a-zA-Z0-9_:]*]. *)
Definition IsValidMetricName (s : string) : bool :=
  match s with
  | EmptyString => false
  | String c s' =>
      (is_alpha c || is_underscore c || is_colon c)
      && all_chars (fun d => is_alpha d || is_digit d || is_underscore d || is_colon d) s'
  end.

(** [checkLabelName]: [[a-zA-Z_][a-zA-Z0-9_]*], not starting with "__". *)
Definition checkLabelName (s : string) : bool :=
  match s with
  | EmptyString => false
  | String c s' =>
      (is_alpha c || is_underscore c)
      && all_chars (fun d => is_alpha d || is_digit d || is_underscore d) s'
      && negb (String.prefix "__" s)
  end.

(** A descriptor: what a scrape shows of a metric besides its values. *)
Record Desc := mkDesc {
  fqName : string;
  help : string;
  variableLabels : list string;
  descOk : bool
}.

(** [prometheus.NewDesc] for a metric without constant labels. *)
Definition NewDesc (fq hlp : string) (labels : list string) : Desc :=
  {| fqName := fq;
     help := hlp;
     variableLabels := labels;
     descOk := IsValidMetricName fq
               && forallb checkLabelName labels
               && bool_decide (NoDup labels) |}.

(** A counter vector: its descriptor and one count per tuple of label
    values.  A child only offers [Inc] and [Add] of a non-negative amount;
    the counts below are the number of [Inc] calls. *)
Record CounterVec := mkCounterVec {
  desc : Desc;
  children : gmap (list string) nat
}.

Definition NewCounterVec (opts : CounterOpts) (labelNames : list string) : CounterVec :=
  {| desc := NewDesc (BuildFQName (Namespace opts) (Subsystem opts) (Name opts))
                     (Help opts) labelNames;
     children := ∅ |}.

(** The registry holds the descriptors of the registered collectors, in
    registration order. *)
Definition Registry := list Desc.

Definition registered (fq : string) (r : Registry) : bool :=
  existsb (fun d => String.eqb (fqName d) fq) r.

(** [Registerer.Register]: refuses an invalid descriptor and a descriptor
    whose fully-qualified name is already taken. *)
Definition Register (c : CounterVec) (r : Registry) : Registry + string :=
  if negb (descOk (desc c)) then inr "descriptor is invalid"
  else if registered (fqName (desc c)) r
    then inr "duplicate metrics collector registration attempted"
  else inl (r ++ [desc c])%list.

(** [prometheus.MustRegister]: panics where [Register] returns an error. *)
Definition MustRegister (c : CounterVec) (r : Registry) : result Registry :=
  match Register c r with
  | inl r' => Ok r'
  | inr e => Panic e
  end.

(** [vec.WithLabelValues(lvs...).Inc()]: panics when the number of label
    values differs from the number of label names. *)
Definition Inc (lvs : list string) (c : CounterVec) : result CounterVec :=
  if (length lvs =? length (variableLabels (desc c)))%nat then
    Ok {| desc := desc c;
          children := <[lvs := S (default 0 (children c !! lvs))]> (children c) |}
  else Panic "inconsistent label cardinality".

Definition value (lvs : list string) (c : CounterVec) : nat :=
  default 0 (children c !! lvs).

End Prometheus.

(** ** [api/app/metrics.go] *)

Module Metrics.
Import Prometheus.

Definition totalFailedLoginsVec : CounterVec :=
  NewCounterVec
    {| Namespace := "auth";
       Subsystem := "logins";
       Name := "failed_logins";
       Help := "Total number of failed logins" |}
    [].

Definition totalSubmissionCounterVec : CounterVec :=
  NewCounterVec
    {| Namespace := "worker";
       Subsystem := "submissions";
       Name := "pushed_total";
       Help := "Total number of submissions pushed to the server" |}
    ["task_id"].

Definition totalDockerFailExitCounterVec : CounterVec :=
  NewCounterVec
    {| Namespace := "worker";
       Subsystem := "submissions";
       Name := "failed_total";
       Help := "Total number of submissions where docker has unsuccessful exit status" |}
    ["task_id"; "kind"].

Definition totalDockerSuccessExitCounterVec : CounterVec :=
  NewCounterVec
    {| Namespace := "worker";
       Subsystem := "submissions";
       Name := "success_total";
       Help := "Total number of submissions where docker has successful exit status" |}
    ["task_id"; "kind"].

(** The package-level state of the process: the default registry and the
    four counter vectors. *)
Record State := mkState {
  registry : Registry;
  failedLogins : CounterVec;
  submissions : CounterVec;
  dockerFail : CounterVec;
  dockerSuccess : CounterVec
}.

(** The state once the package-level [var] block has been evaluated. *)
Definition vars : State :=
  {| registry := [];
     failedLogins := totalFailedLoginsVec;
     submissions := totalSubmissionCounterVec;
     dockerFail := totalDockerFailExitCounterVec;
     dockerSuccess := totalDockerSuccessExitCounterVec |}.

Definition with_registry (r : Registry) (s : State) : State :=
  {| registry := r;
     failedLogins := failedLogins s;
     submissions := submissions s;
     dockerFail := dockerFail s;
     dockerSuccess := dockerSuccess s |}.

(** [func init()] *)
Definition init (s : State) : result State :=
  r1 ← MustRegister (submissions s) (registry s);
  r2 ← MustRegister (dockerFail s) r1;
  r3 ← MustRegister (dockerSuccess s) r2;
  r4 ← MustRegister (failedLogins s) r3;
  Ok (with_registry r4 s).

(** The four vectors are unexported: the rest of the process can only
    reach them through these names, and a counter child can only grow. *)
Inductive Vec := FailedLogins | Submissions | DockerFail | DockerSuccess.

#[export] Instance Vec_eq_dec : EqDecision Vec.
Proof. solve_decision. Defined.

Definition get (v : Vec) (s : State) : CounterVec :=
  match v with
  | FailedLogins => failedLogins s
  | Submissions => submissions s
  | DockerFail => dockerFail s
  | DockerSuccess => dockerSuccess s
  end.

Definition set (v : Vec) (c : CounterVec) (s : State) : State :=
  match v with
  | FailedLogins =>
      {| registry := registry s; failedLogins := c; submissions := submissions s;
         dockerFail := dockerFail s; dockerSuccess := dockerSuccess s |}
  | Submissions =>
      {| registry := registry s; failedLogins := failedLogins s; submissions := c;
         dockerFail := dockerFail s; dockerSuccess := dockerSuccess s |}
  | DockerFail =>
      {| registry := registry s; failedLogins := failedLogins s;
         submissions := submissions s; dockerFail := c;
         dockerSuccess := dockerSuccess s |}
  | DockerSuccess =>
      {| registry := registry s; failedLogins := failedLogins s;
         submissions := submissions s; dockerFail := dockerFail s;
         dockerSuccess := c |}
  end.

(** One use of a counter somewhere in the process:
    [vec.WithLabelValues(lvs...).Inc()]. *)
Definition inc (v : Vec) (lvs : list string) (s : State) : result State :=
  c ← Inc lvs (get v s); Ok (set v c s).

(** A process lifetime after start-up: a sequence of counter uses, which
    stops at the first panic. *)
Fixpoint run (ops : list (Vec * list string)) (s : State) : result State :=
  match ops with
  | [] => Ok s
  | (v, lvs) :: ops' => inc v lvs s ≫= run ops'
  end.

(** What a scrape shows of the surface: name and label names of every
    registered metric. *)
Definition surface (s : State) : list (string * list string) :=
  map (fun d => (fqName d, variableLabels d)) (registry s).

(** The surface as the specification words it (section 6). *)
Definition spec_surface : list (string * list string) :=
  [("submissions_pushed_total", ["task_id"]);
   ("submissions_failed_total", ["task_id"; "kind"]);
   ("submissions_success_total", ["task_id"; "kind"]);
   ("auth_logins_failed_total", [])].

(** The surface under the names the code builds. *)
Definition code_surface : list (string * list string) :=
  [("worker_submissions_pushed_total", ["task_id"]);
   ("worker_submissions_failed_total", ["task_id"; "kind"]);
   ("worker_submissions_success_total", ["task_id"; "kind"]);
   ("auth_logins_failed_logins", [])].

(** Two surfaces show the same metrics, whatever the order. *)
Definition same_surface (a b : list (string * list string)) : Prop :=
  forall m, In m a <-> In m b.

(** No counter of [s2] is below its value in [s1]. *)
Definition non_decreasing (s1 s2 : State) : Prop :=
  forall v lvs, value lvs (get v s1) <= value lvs (get v s2).

End Metrics.

(** ** Package [null] and package [model], as far as [account.go] uses them *)

Module null.

(** [null.String]: a string that may be NULL in the database. *)
Record String := mkString {
  Str : string;
  Valid : bool
}.

(** [null.StringFrom] always gives a valid (non-NULL) string. *)
Definition StringFrom (s : string) : String := {| Str := s; Valid := true |}.

(** The zero value of the struct. *)
Definition zero : String := {| Str := ""; Valid := false |}.

End null.

Module model.

Record User := mkUser {
  ID : Z;
  FirstName : string;
  LastName : string;
  AvatarURL : null.String;
  Email : string;
  StudentNumber : string;
  Semester : Z;
  Subject : string;
  Language : string;
  EncryptedPassword : string;
  ConfirmEmailToken : null.String;
  Root : bool
}.

(** Field assignments through the [*User] pointer a handler holds. *)
Definition set_Email (v : string) (u : User) : User :=
  {| ID := ID u; FirstName := FirstName u; LastName := LastName u;
     AvatarURL := AvatarURL u; Email := v; StudentNumber := StudentNumber u;
     Semester := Semester u; Subject := Subject u; Language := Language u;
     EncryptedPassword := EncryptedPassword u;
     ConfirmEmailToken := ConfirmEmailToken u; Root := Root u |}.

Definition set_ConfirmEmailToken (v : null.String) (u : User) : User :=
  {| ID := ID u; FirstName := FirstName u; LastName := LastName u;
     AvatarURL := AvatarURL u; Email := Email u; StudentNumber := StudentNumber u;
     Semester := Semester u; Subject := Subject u; Language := Language u;
     EncryptedPassword := EncryptedPassword u;
     ConfirmEmailToken := v; Root := Root u |}.

Definition set_EncryptedPassword (v : string) (u : User) : User :=
  {| ID := ID u; FirstName := FirstName u; LastName := LastName u;
     AvatarURL := AvatarURL u; Email := Email u; StudentNumber := StudentNumber u;
     Semester := Semester u; Subject := Subject u; Language := Language u;
     EncryptedPassword := v;
     ConfirmEmailToken := ConfirmEmailToken u; Root := Root u |}.

End model.

(** ** [api/app/account.go] *)

Module App.

Definition Error := string.

(** The account part of both request types. *)
Record AccountFields := mkAccountFields {
  Email : string;
  PlainPassword : string;
  EncryptedPassword : string
}.

(** [CreateUserAccountRequest].  Its user part is given every field of
    [model.User], so that a request body may try to supply all of them. *)
Record CreateUserAccountRequest := mkCreateUserAccountRequest {
  Req_User : model.User;
  Req_Account : AccountFields
}.

Record AccountRequest := mkAccountRequest {
  Account : AccountFields;
  OldPlainPassword : string
}.

(** What a handler hands to [render.Render]. *)
Inductive Renderer :=
| ErrResponse (HTTPStatusCode : Z) (StatusText : string) (Err : option Error)
| UserResponse (u : model.User).

(** The constructors of [api/app/errors.go], by their HTTP status. *)
Definition StatusOK : Z := 200.
Definition StatusCreated : Z := 201.
Definition StatusNoContent : Z := 204.
Definition StatusBadRequest : Z := 400.
Definition StatusNotFound : Z := 404.
Definition StatusUnprocessableEntity : Z := 422.
Definition StatusInternalServerError : Z := 500.

Definition ErrBadRequestWithDetails (err : Error) : Renderer :=
  ErrResponse StatusBadRequest "Bad Request" (Some err).
Definition ErrNotFound : Renderer :=
  ErrResponse StatusNotFound "Not Found" None.
Definition ErrRender (err : Error) : Renderer :=
  ErrResponse StatusUnprocessableEntity "Error rendering response" (Some err).
Definition ErrInternalServerErrorWithDetails (err : Error) : Renderer :=
  ErrResponse StatusInternalServerError "Internal Server Error" (Some err).

(** The calls a handler makes on [rs.Stores.User]. *)
Inductive StoreCall :=
| CallGet (id : Z)
| CallCreate (u : model.User)
| CallUpdate (u : model.User).

(** The [UserStore] interface behind [rs.Stores.User].  [Get] reads;
    [Create] and [Update] may change the store, and may fail. *)
Class UserStore (S : Type) := {
  Get : Z -> S -> model.User + Error;
  Create : model.User -> S -> (model.User + Error) * S;
  Update : model.User -> S -> option Error * S
}.

(** [authenticate.AccessClaims], read from the request context. *)
Record AccessClaims := mkAccessClaims {
  LoginID : Z;
  ClaimsRoot : bool
}.

(** [configuration.Configuration.Server], as far as it is read here. *)
Record Configuration := mkConfiguration {
  DebuggingEnabled : bool;
  EmailFrom : string;
  ExternalURL : string
}.

(** An outgoing message built by [email.NewEmailFromTemplate]. *)
Record EmailMsg := mkEmailMsg {
  From : string;
  To : string;
  MsgSubject : string;
  Template : string;
  Data : list (string * string)
}.

(** What the handlers take from the rest of the program and from the
    process: the random source behind [auth.GenerateToken], the raw
    request body, the mail transport and the configuration. *)
Class Env := {
  Entropy : Type;
  Body : Type;
  Mailer : Type;
  (** [auth.GenerateToken(n)], reading the random source. *)
  GenerateToken : nat -> Entropy -> string * Entropy;
  (** [auth.CheckPasswordHash(password, hash)]. *)
  CheckPasswordHash : string -> string -> bool;
  (** [render.Bind] into the two request types: JSON decoding followed by
      the type's own [Bind] method. *)
  BindCreate : Body -> CreateUserAccountRequest + Error;
  BindAccount : Body -> AccountRequest + Error;
  (** Rendering a [UserResponse] may fail. *)
  RenderUser : model.User -> option Error;
  (** [email.NewEmailFromTemplate] and [email.DefaultMail.Send]. *)
  NewEmailFromTemplate : EmailMsg -> EmailMsg + Error;
  Send : EmailMsg -> Mailer -> option Error * Mailer;
  Config : Configuration
}.

Section Handlers.

Context {S : Type} `{UserStore S} `{Env}.

(** Everything a handler reads and writes. *)
Record World := mkWorld {
  store : S;
  calls : list StoreCall;
  rng : Entropy;
  mailer : Mailer;
  statusCtx : option Z;
  written : list (Z * Renderer)
}.

(** [render.Status(r, status)] *)
Definition Status (status : Z) (w : World) : World :=
  {| store := store w; calls := calls w; rng := rng w; mailer := mailer w;
     statusCtx := Some status; written := written w |}.

(** Writing a payload: the status in the request context, 200 if none. *)
Definition Respond (v : Renderer) (w : World) : World :=
  {| store := store w; calls := calls w; rng := rng w; mailer := mailer w;
     statusCtx := statusCtx w;
     written := (written w ++ [(default StatusOK (statusCtx w), v)])%list |}.

(** [render.Render(w, r, v)]: the payload's own [Render] method first
    (an [ErrResponse] sets its status there), then the response. *)
Definition Render (v : Renderer) (w : World) : option Error * World :=
  match v with
  | ErrResponse code _ _ => (None, Respond v (Status code w))
  | UserResponse u =>
      match RenderUser u with
      | Some err => (Some err, w)
      | None => (None, Respond v w)
      end
  end.

(** The status line of the HTTP response: that of the first write. *)
Definition http_status (w : World) : option Z := fst <$> head (written w).

Definition with_store (s : S) (c : StoreCall) (w : World) : World :=
  {| store := s; calls := (calls w ++ [c])%list; rng := rng w; mailer := mailer w;
     statusCtx := statusCtx w; written := written w |}.

Definition with_rng (e : Entropy) (w : World) : World :=
  {| store := store w; calls := calls w; rng := e; mailer := mailer w;
     statusCtx := statusCtx w; written := written w |}.

Definition with_mailer (m : Mailer) (w : World) : World :=
  {| store := store w; calls := calls w; rng := rng w; mailer := m;
     statusCtx := statusCtx w; written := written w |}.

(** [sendConfirmEmailForUser] *)
Definition sendConfirmEmailForUser (from : string) (user : model.User) (w : World)
  : option Error * World :=
  match NewEmailFromTemplate
          {| From := from;
             To := model.Email user;
             MsgSubject := "Confirm Account Instructions";
             Template := "ConfirmEmailTemplateEN";
             Data := [("first_name", model.FirstName user);
                      ("last_name", model.LastName user);
                      ("confirm_email_url", ExternalURL Config +:+ "/#/confirmation");
                      ("confirm_email_address", model.Email user);
                      ("confirm_email_token", null.Str (model.ConfirmEmailToken user))] |}
  with
  | inr err => (Some err, w)
  | inl msg =>
      let '(err, m) := Send msg (mailer w) in
      (err, with_mailer m w)
  end.

(** [AccountResource.CreateHandler] *)
Definition CreateHandler (body : Body) (w : World) : World :=
  match BindCreate body with
  | inr err => snd (Render (ErrBadRequestWithDetails err) w)
  | inl data =>
      let '(tok, e) := GenerateToken 32 (rng w) in
      let w := with_rng e w in
      let token := null.StringFrom tok in
      let user :=
        {| model.ID := 0;
           model.FirstName := model.FirstName (Req_User data);
           model.LastName := model.LastName (Req_User data);
           model.AvatarURL := null.zero;
           model.Email := model.Email (Req_User data);
           model.StudentNumber := model.StudentNumber (Req_User data);
           model.Semester := model.Semester (Req_User data);
           model.Subject := model.Subject (Req_User data);
           model.Language := model.Language (Req_User data);
           model.ConfirmEmailToken := token;
           model.EncryptedPassword := EncryptedPassword (Req_Account data);
           model.Root := false |} in
      let '(r, s) := Create user (store w) in
      let w := with_store s (CallCreate user) w in
      match r with
      | inr err => snd (Render (ErrRender err) w)
      | inl newUser =>
          let w := Status StatusCreated w in
          match Render (UserResponse newUser) w with
          | (Some err, w) => snd (Render (ErrRender err) w)
          | (None, w) =>
              if negb (DebuggingEnabled Config) then
                match sendConfirmEmailForUser (EmailFrom Config) newUser w with
                | (Some err, w) => snd (Render (ErrInternalServerErrorWithDetails err) w)
                | (None, w) => w
                end
              else w
          end
      end
  end.

(** [AccountResource.EditHandler].  The route is mounted behind
    [authenticate.RequiredValidAccessClaims] ([router.go]), so the
    request context always carries the access claims. *)
Definition EditHandler (accessClaims : AccessClaims) (body : Body) (w : World) : World :=
  let w0 := with_store (store w) (CallGet (LoginID accessClaims)) w in
  match Get (LoginID accessClaims) (store w) with
  | inr _ => snd (Render ErrNotFound w0)
  | inl user =>
      match BindAccount body with
      | inr err => snd (Render (ErrBadRequestWithDetails err) w0)
      | inl data =>
          if String.eqb (OldPlainPassword data) "" then
            snd (Render (ErrBadRequestWithDetails
                           "old_plain_password in request is missing") w0)
          else if negb (CheckPasswordHash (OldPlainPassword data)
                                          (model.EncryptedPassword user)) then
            snd (Render (ErrBadRequestWithDetails "credentials are wrong") w0)
          else
            let emailHasChanged :=
              if negb (String.eqb (Email (Account data)) "")
              then negb (String.eqb (Email (Account data)) (model.Email user))
              else false in
            let passwordHasChanged :=
              negb (String.eqb (PlainPassword (Account data)) "") in
            let '(user, w1) :=
              if emailHasChanged then
                let '(tok, e) := GenerateToken 32 (rng w0) in
                (model.set_Email (Email (Account data))
                   (model.set_ConfirmEmailToken (null.StringFrom tok) user),
                 with_rng e w0)
              else (user, w0) in
            let user :=
              if passwordHasChanged
              then model.set_EncryptedPassword (EncryptedPassword (Account data)) user
              else user in
            let '(err, s) := Update user (store w1) in
            let w2 := with_store s (CallUpdate user) w1 in
            match err with
            | Some err => snd (Render (ErrInternalServerErrorWithDetails err) w2)
            | None =>
                let '(err, w3) :=
                  if emailHasChanged
                  then sendConfirmEmailForUser (EmailFrom Config) user w2
                  else (None, w2) in
                match err with
                | Some err => snd (Render (ErrInternalServerErrorWithDetails err) w3)
                | None =>
                    let w4 := Status StatusNoContent w3 in
                    match Render (UserResponse user) w4 with
                    | (Some err, w5) => snd (Render (ErrRender err) w5)
                    | (None, w5) => w5
                    end
                end
            end
      end
  end.

(** The handler answered with one error response of status [code] and
    did nothing with the store but look the user [id] up. *)
Definition refused_with (code id : Z) (w w' : World) : Prop :=
  (exists txt err,
      written w' = (written w ++ [(code, ErrResponse code txt err)])%list)
  /\ store w' = store w
  /\ calls w' = (calls w ++ [CallGet id])%list.

End Handlers.

Arguments World S {_}.

(** *** A store and an environment to run the handlers on

    An in-memory [UserStore]: rows by primary key.  [Create] assigns the
    next key, [Update] rewrites the row of the user's key. *)
Definition set_ID (v : Z) (u : model.User) : model.User :=
  {| model.ID := v; model.FirstName := model.FirstName u;
     model.LastName := model.LastName u; model.AvatarURL := model.AvatarURL u;
     model.Email := model.Email u; model.StudentNumber := model.StudentNumber u;
     model.Semester := model.Semester u; model.Subject := model.Subject u;
     model.Language := model.Language u;
     model.EncryptedPassword := model.EncryptedPassword u;
     model.ConfirmEmailToken := model.ConfirmEmailToken u;
     model.Root := model.Root u |}.

Definition mem_Get (id : Z) (s : gmap Z model.User) : model.User + Error :=
  match s !! id with
  | Some u => inl u
  | None => inr "sql: no rows in result set"
  end.

Definition mem_Create (u : model.User) (s : gmap Z model.User)
  : (model.User + Error) * gmap Z model.User :=
  let id := (Z.of_nat (size s) + 1)%Z in
  match s !! id with
  | Some _ => (inr "pq: duplicate key value violates unique constraint", s)
  | None => (inl (set_ID id u), <[id := set_ID id u]> s)
  end.

Definition mem_Update (u : model.User) (s : gmap Z model.User)
  : option Error * gmap Z model.User :=
  match s !! model.ID u with
  | Some _ => (None, <[model.ID u := u]> s)
  | None => (Some "sql: no rows in result set", s)
  end.

#[export] Instance MemStore : UserStore (gmap Z model.User) :=
  {| Get := mem_Get; Create := mem_Create; Update := mem_Update |}.

(** A token of [n] characters drawn from a counter. *)
Fixpoint token_chars (n seed : nat) : string :=
  match n with
  | O => ""
  | Datatypes.S n' =>
      String (ascii_of_nat (97 + (seed + n') mod 26)) (token_chars n' seed)
  end.

(** A deterministic environment: tokens from a counter, passwords
    "hashed" by a prefix, bodies already decoded (or malformed), a mail
    transport that records what it sends. *)
Definition TestEnv : Env :=
  {| Entropy := nat;
     Body := option CreateUserAccountRequest * option AccountRequest;
     Mailer := list EmailMsg;
     GenerateToken := fun n e => (token_chars n e, Datatypes.S e);
     CheckPasswordHash := fun p h => String.eqb ("hash:" +:+ p) h;
     BindCreate := fun b =>
       match fst b with Some d => inl d | None => inr "unexpected end of JSON input" end;
     BindAccount := fun b =>
       match snd b with Some d => inl d | None => inr "unexpected end of JSON input" end;
     RenderUser := fun _ => None;
     NewEmailFromTemplate := fun m => inl m;
     Send := fun m out => (None, (out ++ [m])%list);
     Config := {| DebuggingEnabled := false;
                  EmailFrom := "no-reply@infomark.org";
                  ExternalURL := "https://infomark.org" |} |}.

Definition alice : model.User :=
  {| model.ID := 1; model.FirstName := "Alice"; model.LastName := "Doe";
     model.AvatarURL := null.zero; model.Email := "alice@uni.org";
     model.StudentNumber := "1234"; model.Semester := 3;
     model.Subject := "math"; model.Language := "en";
     model.EncryptedPassword := "hash:secret";
     model.ConfirmEmailToken := null.zero; model.Root := false |}.

(** A request body that tries to register a root user with an already
    confirmed email address. *)
Definition mallory : model.User :=
  {| model.ID := 77; model.FirstName := "Mallory"; model.LastName := "Roe";
     model.AvatarURL := null.zero; model.Email := "mallory@uni.org";
     model.StudentNumber := "6666"; model.Semester := 1;
     model.Subject := "cs"; model.Language := "en";
     model.EncryptedPassword := "";
     model.ConfirmEmailToken := null.zero; model.Root := true |}.

Definition create_mallory : CreateUserAccountRequest :=
  {| Req_User := mallory;
     Req_Account := {| Email := "mallory@uni.org"; PlainPassword := "pw";
                       EncryptedPassword := "hash:pw" |} |}.

Definition claims_of (id : Z) : AccessClaims :=
  {| LoginID := id; ClaimsRoot := false |}.

(** A PATCH body asking for a new email address, with the given old
    password. *)
Definition edit_email (old : string) : AccountRequest :=
  {| Account := {| Email := "new@uni.org"; PlainPassword := "";
                   EncryptedPassword := "" |};
     OldPlainPassword := old |}.

Definition world0 (s : gmap Z model.User) : @World (gmap Z model.User) TestEnv :=
  @mkWorld (gmap Z model.User) TestEnv s [] 0%nat [] None [].

End App.

(** ** The result classifier and the result reporter of the grading pipeline

    The worker, the sandbox executor, the result classifier and the result
    reporter of the repository are not among the source files at hand; only
    the counters they increment are ([metrics.go]).  The definitions of this
    module follow the specification (sections 3, 4.3, 4.4, 4.5, 6 and 9). *)

Module Grading.

(** Modelled from the spec: the test kind of a Job Descriptor (section 3,
    [public] or [private]); the job types of the worker are missing. *)
Inductive Kind := Public | Private.

#[export] Instance Kind_eq_dec : EqDecision Kind.
Proof. solve_decision. Defined.



(** Modelled from the spec: what a grade is recorded for, a (submission,
    task, kind) (sections 6 and 7); the schema is missing. *)
Definition Key : Type := Z * string * Kind.



(** Modelled from the spec: the closed set of Outcome variants (section
    3); the worker's result type is missing. *)
Inductive Outcome :=
| Passed
| Failed (reason : string)
| TimedOut
| InfraError (cause : string).

(** Modelled from the spec: what the Sandbox Executor hands to the
    classifier (Execution Result, section 3, and the inputs of section
    4.3); the executor is missing, so its result is an input here. *)
Record Execution := mkExecution {
  launchError : option string;
  timedOut : bool;
  exitCode : Z;
  truncated : bool;
  output : string;
  duration : nat
}.

(** The diagnostic text of a failure, "derived from exit code/output". *)
Definition failure_reason (code : Z) (trunc : bool) (out : string) : string :=
  "exit status " +:+ pretty code +:+ ": " +:+ out
  +:+ (if trunc then " [output truncated]" else "").

(** Modelled from the spec: the Result Classifier, the table of section
    4.3 read top to bottom; the classifier's code is missing. *)
Definition classify (e : Execution) : Outcome :=
  match launchError e with
  | Some cause => InfraError cause
  | None =>
      if timedOut e then TimedOut
      else if (exitCode e =? 0)%Z then Passed
      else Failed (failure_reason (exitCode e) (truncated e) (output e))
  end.

(** Modelled from the spec: the persisted record of section 6 (outcome,
    exit code, truncated output, duration, attempt count); the schema is
    missing. *)
Record Row := mkRow {
  rowKey : Key;
  rowOutcome : Outcome;
  rowExit : Z;
  rowOutput : string;
  rowDuration : nat;
  rowAttempt : nat
}.

(** What the reporter does besides the write, in the order it does it. *)
Inductive Event :=
| EvPersist (k : Key) (o : Outcome)
| EvMetric (v : Metrics.Vec) (labels : list string)
| EvAlert (k : Key) (cause : string)
| EvNotify (k : Key).

(** Modelled from the spec: what the reporter acts on: the table of
    persisted records and the effects it has had; storage is missing. *)
Record State := mkState {
  rows : list Row;
  trace : list Event
}.














Definition with_output (out : string) (e : Execution) : Execution :=
  {| launchError := launchError e; timedOut := timedOut e; exitCode := exitCode e;
     truncated := truncated e; output := out; duration := duration e |}.








Definition exited (code : Z) (out : string) : Execution :=
  {| launchError := None; timedOut := false; exitCode := code; truncated := false;
     output := out; duration := 1 |}.

End Grading.

(** ** [api/app/account.go]: the other account handlers *)

Module AppAccount.
Import App.

(** [helper.NewAvatarFileHandle(id)] and the operations the handlers call on
    it, over the directory of avatar files; [Upload] is the multipart
    request. *)
Class AvatarFiles := {
  Files : Type;
  Upload : Type;
  WriteToDisk : Z -> Upload -> string -> Files -> (string + Error) * Files;
  DeleteFile : Z -> Files -> option Error * Files
}.

Section Handlers.

Context {S : Type} `{UserStore S} `{Env} `{AvatarFiles}.

(** [user.AvatarURL = ...] *)
Definition set_AvatarURL (v : null.String) (u : model.User) : model.User :=
  {| model.ID := model.ID u; model.FirstName := model.FirstName u;
     model.LastName := model.LastName u; model.AvatarURL := v;
     model.Email := model.Email u; model.StudentNumber := model.StudentNumber u;
     model.Semester := model.Semester u; model.Subject := model.Subject u;
     model.Language := model.Language u;
     model.EncryptedPassword := model.EncryptedPassword u;
     model.ConfirmEmailToken := model.ConfirmEmailToken u;
     model.Root := model.Root u |}.

(** [strconv.FormatInt(i, 10)] *)
Definition FormatInt (i : Z) : string := pretty i.

(** [AccountResource.GetHandler] *)
Definition GetHandler (accessClaims : AccessClaims) (w : World S) : World S :=
  let w0 := with_store (store w) (CallGet (LoginID accessClaims)) w in
  match Get (LoginID accessClaims) (store w) with
  | inr _ => snd (Render ErrNotFound w0)
  | inl user =>
      match Render (UserResponse user) w0 with
      | (Some err, w1) => snd (Render (ErrRender err) w1)
      | (None, w1) => w1
      end
  end.

(** [AccountResource.ChangeAvatarHandler].  A failed upload is answered
    with a 400, and the handler goes on: there is no [return] after it. *)
Definition ChangeAvatarHandler (accessClaims : AccessClaims) (upload : Upload)
    (fw : Files * World S) : Files * World S :=
  let '(fs, w) := fw in
  let w0 := with_store (store w) (CallGet (LoginID accessClaims)) w in
  match Get (LoginID accessClaims) (store w) with
  | inr _ => (fs, snd (Render ErrNotFound w0))
  | inl user =>
      let '(r, fs1) := WriteToDisk (model.ID user) upload "file_data" fs in
      let w1 :=
        match r with
        | inr err => snd (Render (ErrBadRequestWithDetails err) w0)
        | inl _ => w0
        end in
      let user :=
        set_AvatarURL
          (null.StringFrom
             ("/api/v1/users/" +:+ FormatInt (model.ID user) +:+ "/avatar"))
          user in
      let '(err, s) := Update user (store w1) in
      let w2 := with_store s (CallUpdate user) w1 in
      let w3 :=
        match err with
        | Some err => snd (Render (ErrInternalServerErrorWithDetails err) w2)
        | None => w2
        end in
      (fs1, Status StatusOK w3)
  end.

(** [AccountResource.DeleteAvatarHandler] *)
Definition DeleteAvatarHandler (accessClaims : AccessClaims)
    (fw : Files * World S) : Files * World S :=
  let '(fs, w) := fw in
  let w0 := with_store (store w) (CallGet (LoginID accessClaims)) w in
  match Get (LoginID accessClaims) (store w) with
  | inr _ => (fs, snd (Render ErrNotFound w0))
  | inl user =>
      let '(err, fs1) := DeleteFile (model.ID user) fs in
      let w1 :=
        match err with
        | Some err => snd (Render (ErrInternalServerErrorWithDetails err) w0)
        | None => w0
        end in
      (fs1, Status StatusNoContent w1)
  end.

(** The message [sendConfirmEmailForUser] asks the template for. *)
Definition confirm_message (from : string) (user : model.User) : EmailMsg :=
  {| From := from;
     To := model.Email user;
     MsgSubject := "Confirm Account Instructions";
     Template := "ConfirmEmailTemplateEN";
     Data := [("first_name", model.FirstName user);
              ("last_name", model.LastName user);
              ("confirm_email_url", ExternalURL Config +:+ "/#/confirmation");
              ("confirm_email_address", model.Email user);
              ("confirm_email_token", null.Str (model.ConfirmEmailToken user))] |}.

(** The two fields of the PATCH logic of [EditHandler]. *)
Definition emailHasChanged (data : AccountRequest) (user : model.User) : bool :=
  if negb (String.eqb (Email (Account data)) "")
  then negb (String.eqb (Email (Account data)) (model.Email user))
  else false.

Definition passwordHasChanged (data : AccountRequest) : bool :=
  negb (String.eqb (PlainPassword (Account data)) "").

(** The record [EditHandler] hands to [Update]: the stored one with the
    email address and a new confirmation token when the address changed,
    and with the new password hash when a password was given. *)
Definition updated_user (data : AccountRequest) (user : model.User) (tok : string)
  : model.User :=
  let u :=
    if emailHasChanged data user
    then model.set_Email (Email (Account data))
           (model.set_ConfirmEmailToken (null.StringFrom tok) user)
    else user in
  if passwordHasChanged data
  then model.set_EncryptedPassword (EncryptedPassword (Account data)) u
  else u.

(** The response that ends a successful [EditHandler]. *)
Definition edit_response (u : model.User) : Z * Renderer :=
  match RenderUser u with
  | None => (StatusNoContent, UserResponse u)
  | Some err => (StatusUnprocessableEntity, ErrRender err)
  end.

(** The record [CreateHandler] hands to [Create]. *)
Definition created_user (data : CreateUserAccountRequest) (tok : string) : model.User :=
  {| model.ID := 0;
     model.FirstName := model.FirstName (Req_User data);
     model.LastName := model.LastName (Req_User data);
     model.AvatarURL := null.zero;
     model.Email := model.Email (Req_User data);
     model.StudentNumber := model.StudentNumber (Req_User data);
     model.Semester := model.Semester (Req_User data);
     model.Subject := model.Subject (Req_User data);
     model.Language := model.Language (Req_User data);
     model.ConfirmEmailToken := null.StringFrom tok;
     model.EncryptedPassword := EncryptedPassword (Req_Account data);
     model.Root := false |}.

(** The mail transport after one [sendConfirmEmailForUser]: untouched when
    the template fails, otherwise what [Send] leaves. *)
Definition mail_sent (from : string) (user : model.User) (m : Mailer) : Mailer :=
  match NewEmailFromTemplate (confirm_message from user) with
  | inl msg => snd (Send msg m)
  | inr _ => m
  end.

(** Whether that mail went out without an error. *)
Definition mail_error (from : string) (user : model.User) (m : Mailer) : option Error :=
  match NewEmailFromTemplate (confirm_message from user) with
  | inl msg => fst (Send msg m)
  | inr err => Some err
  end.

End Handlers.

(** The test environment with a mail server that refuses every message. *)
Definition NoMailEnv : Env :=
  {| Entropy := nat;
     Body := option CreateUserAccountRequest * option AccountRequest;
     Mailer := list EmailMsg;
     GenerateToken := fun n e => (token_chars n e, Datatypes.S e);
     CheckPasswordHash := fun p h => String.eqb ("hash:" +:+ p) h;
     BindCreate := fun b =>
       match fst b with Some d => inl d | None => inr "unexpected end of JSON input" end;
     BindAccount := fun b =>
       match snd b with Some d => inl d | None => inr "unexpected end of JSON input" end;
     RenderUser := fun _ => None;
     NewEmailFromTemplate := fun m => inl m;
     Send := fun m out => (Some "smtp: connection refused", out);
     Config := {| DebuggingEnabled := false;
                  EmailFrom := "no-reply@infomark.org";
                  ExternalURL := "https://infomark.org" |} |}.

Definition world1 (s : gmap Z model.User) : @World (gmap Z model.User) NoMailEnv :=
  @mkWorld (gmap Z model.User) NoMailEnv s [] 0%nat [] None [].

(** Avatar files in memory: the set of user ids that have one.  An upload
    is the file name to store, or nothing when the form field is missing. *)
#[export] Instance MemFiles : AvatarFiles :=
  {| Files := gset Z;
     Upload := option string;
     WriteToDisk := fun id up field fs =>
       match up with
       | Some name => (inl name, {[id]} ∪ fs)
       | None => (inr "http: no such file", fs)
       end;
     DeleteFile := fun id fs =>
       if decide (id ∈ fs) then (None, fs ∖ {[id]})
       else (Some "remove: no such file or directory", fs) |}.

End AppAccount.

(** ** [api/app/router.go]: [FileServer] *)

Module Router.

(** What a route of the mux serves. *)
Inductive Handler :=
| RedirectHandler (url : string) (code : Z)
| StaticFiles (stripPrefix : string) (root : string).

(** chi's routing tree as far as [FileServer] uses it: one handler per
    method and routing pattern. *)
Abbreviation Mux := (gmap (string * string) Handler).

(** [strings.ContainsAny(s, chars)] *)
Fixpoint contains_char (c : ascii) (s : string) : bool :=
  match s with
  | EmptyString => false
  | String d s' => Ascii.eqb c d || contains_char c s'
  end.

Fixpoint ContainsAny (s chars : string) : bool :=
  match s with
  | EmptyString => false
  | String c s' => contains_char c chars || ContainsAny s' chars
  end.

(** [path[len(path)-1]]: the last byte; indexing the empty string panics. *)
Fixpoint last_char (s : string) : option ascii :=
  match s with
  | EmptyString => None
  | String c EmptyString => Some c
  | String _ s' => last_char s'
  end.

(** [r.Get(pattern, h)] of chi: the pattern has to begin with a slash;
    a handler the tree already holds for the method and the pattern is
    replaced. *)
Definition Get (pat : string) (h : Handler) (r : Mux) : result Mux :=
  match pat with
  | String "/" _ => Ok (<[("GET", pat) := h]> r)
  | _ => Panic "chi: routing pattern must begin with '/'"
  end.

(** [FileServer] *)
Definition FileServer (r : Mux) (path : string) (root : string) : result Mux :=
  if ContainsAny path "{}*" then
    Panic "FileServer does not permit URL parameters."
  else
    let fs := StaticFiles path root in
    slash ← (if String.eqb path "/" then Ok false
             else match last_char path with
                  | None => Panic "runtime error: index out of range [-1]"
                  | Some c => Ok (negb (Ascii.eqb c "/"))
                  end);
    '(r, path) ← (if slash : bool
                  then r' ← Get path (RedirectHandler (path +:+ "/") 301) r;
                       Ok (r', path +:+ "/")
                  else Ok (r, path));
    Get (path +:+ "*") fs r.

End Router.

(** ** [api/server.go]: [NewServer] *)

Module Server.

(** [int64] arithmetic wraps around. *)
Definition wrap64 (z : Z) : Z := ((z + 2 ^ 63) mod 2 ^ 64 - 2 ^ 63)%Z.

(** [time.Second], in nanoseconds. *)
Definition Second : Z := 1000000000.

(** [time.Duration(sec) * time.Second] *)
Definition seconds (sec : Z) : Z := wrap64 (sec * Second).

(** [strings.Contains(s, substr)] *)
Fixpoint Contains (s substr : string) : bool :=
  String.prefix substr s
  || match s with
     | EmptyString => false
     | String _ s' => Contains s' substr
     end.

(** What [NewServer] reads: the configuration (viper), the database and
    the application router. *)
Class Deps := {
  DB : Type;
  Mux : Type;
  GetString : string -> string;
  GetInt64 : string -> Z;
  GetInt : string -> Z;
  Connect : string -> string -> DB + string;
  appNew : DB -> bool -> Mux + string
}.

(** [http.Server], the fields [NewServer] sets. *)
Record HTTPServer `{Deps} := mkHTTPServer {
  Addr : string;
  ServerHandler : Mux;
  ReadTimeout : Z;
  WriteTimeout : Z;
  MaxHeaderBytes : Z
}.

(** [NewServer] *)
Definition NewServer `{Deps} : HTTPServer + string :=
  match Connect "postgres" (GetString "database_connection") with
  | inr err => inr err
  | inl db =>
      match appNew db true with
      | inr err => inr err
      | inl apiHandler =>
          let port := GetString "port" in
          let addr := if Contains port ":" then port else ":" +:+ port in
          inl {| Addr := addr;
                 ServerHandler := apiHandler;
                 ReadTimeout := seconds (GetInt64 "server_read_timeout_sec");
                 WriteTimeout := seconds (GetInt64 "server_write_timeout_sec");
                 MaxHeaderBytes := GetInt "server_write_timeout_sec" |}
      end
  end.

(** A configuration to run [NewServer] on. *)
Definition TestDeps : Deps :=
  {| DB := unit; Mux := unit;
     GetString := fun k => if String.eqb k "port" then "3000" else "user=postgres";
     GetInt64 := fun _ => 30%Z;
     GetInt := fun _ => 30%Z;
     Connect := fun _ _ => inl tt;
     appNew := fun _ _ => inl tt |}.

End Server.

(** * Properties *)

(** ** The metrics surface *)

Module MetricsFacts.
Import Prometheus Metrics.

Lemma init_vars :
  init vars = Ok (with_registry
                    [desc totalSubmissionCounterVec;
                     desc totalDockerFailExitCounterVec;
                     desc totalDockerSuccessExitCounterVec;
                     desc totalFailedLoginsVec] vars).
Proof. reflexivity. Qed.

Lemma Inc_value lvs' lvs c c' :
  Inc lvs c = Ok c' -> value lvs' c <= value lvs' c'.
Proof.
  unfold Inc, value. case_match; [|discriminate].
  intros [= <-]. cbn.
  destruct (decide (lvs = lvs')) as [->|Hne].
  - rewrite lookup_insert_eq. cbn. lia.
  - rewrite lookup_insert_ne by done. lia.
Qed.

Lemma Inc_desc lvs c c' : Inc lvs c = Ok c' -> desc c' = desc c.
Proof. unfold Inc. case_match; [|discriminate]. by intros [= <-]. Qed.

Lemma get_set_eq v c s : get v (set v c s) = c.
Proof. by destruct v. Qed.

Lemma get_set_ne v v' c s : v <> v' -> get v' (set v c s) = get v' s.
Proof. by destruct v, v'. Qed.

Lemma registry_set v c s : registry (set v c s) = registry s.
Proof. by destruct v. Qed.

Lemma inc_non_decreasing v lvs s s' :
  inc v lvs s = Ok s' -> non_decreasing s s' /\ registry s' = registry s.
Proof.
  unfold inc. destruct (Inc lvs (get v s)) as [c|m] eqn:E; [|discriminate].
  cbn. intros [= <-]. split; [|apply registry_set].
  intros v' lvs'. destruct (decide (v = v')) as [->|Hne].
  - rewrite get_set_eq. eapply Inc_value, E.
  - by rewrite get_set_ne.
Qed.

Lemma run_non_decreasing ops : forall s s',
  run ops s = Ok s' -> non_decreasing s s' /\ registry s' = registry s.
Proof.
  induction ops as [|[v lvs] ops IH]; intros s s'; cbn.
  - intros [= <-]. split; [|done]. intros v lvs. lia.
  - destruct (inc v lvs s) as [s1|m] eqn:E; [|discriminate]. cbn.
    intros Hrun. destruct (inc_non_decreasing _ _ _ _ E) as [H1 R1].
    destruct (IH _ _ Hrun) as [H2 R2]. split; [|congruence].
    intros v' lvs'. specialize (H1 v' lvs'). specialize (H2 v' lvs'). lia.
Qed.

(** C8, as the specification states it, fails on the code: the process
    starts and registers its counters, but the registered surface is not
    the one the specification names.  The login counter is exposed as
    [auth_logins_failed_logins], and no metric named
    [auth_logins_failed_total] exists. *)
Lemma metrics_surface_differs_from_spec :
  exists s, init vars = Ok s
    /\ ~ same_surface (surface s) spec_surface
    /\ In ("auth_logins_failed_logins", []) (surface s)
    /\ ~ In "auth_logins_failed_total" (map fst (surface s))
    /\ ~ In "submissions_pushed_total" (map fst (surface s)).
Proof.
  eexists. split; [apply init_vars|]. cbn.
  assert (Hno : ~ In ("auth_logins_failed_total", @nil string) (surface
    (with_registry
       [desc totalSubmissionCounterVec; desc totalDockerFailExitCounterVec;
        desc totalDockerSuccessExitCounterVec; desc totalFailedLoginsVec] vars))).
  { cbn. intros [H|[H|[H|[H|[]]]]]; discriminate H. }
  split; [|split; [|split]].
  - intros Hsame. apply Hno, Hsame. cbn. tauto.
  - tauto.
  - intros [H|[H|[H|[H|[]]]]]; discriminate H.
  - intros [H|[H|[H|[H|[]]]]]; discriminate H.
Qed.

Lemma inc_desc v lvs s s' v' :
  inc v lvs s = Ok s' -> desc (get v' s') = desc (get v' s).
Proof.
  unfold inc. destruct (Inc lvs (get v s)) as [c|m] eqn:E; [|discriminate].
  cbn. intros [= <-]. destruct (decide (v = v')) as [->|Hne].
  - rewrite get_set_eq. eapply Inc_desc, E.
  - by rewrite get_set_ne.
Qed.

Lemma run_desc ops : forall s s' v',
  run ops s = Ok s' -> desc (get v' s') = desc (get v' s).
Proof.
  induction ops as [|[v lvs] ops IH]; intros s s' v'; cbn.
  - by intros [= <-].
  - destruct (inc v lvs s) as [s1|m] eqn:E; [|discriminate]. cbn.
    intros Hrun. rewrite (IH _ _ _ Hrun). eapply inc_desc, E.
Qed.

Lemma registered_app fq (r1 r2 : Registry) :
  registered fq (r1 ++ r2)%list = registered fq r1 || registered fq r2.
Proof. apply existsb_app. Qed.

Lemma registered_In fq (r : Registry) :
  registered fq r = false -> ~ In fq (map fqName r).
Proof.
  induction r as [|d r IH]; cbn; [tauto|].
  destruct (String.eqb (fqName d) fq) eqn:E; cbn; [discriminate|].
  apply String.eqb_neq in E. intros Hr [Hd|Hin]; [done|by apply IH].
Qed.

Lemma MustRegister_fresh c (r : Registry) :
  descOk (desc c) = true ->
  registered (fqName (desc c)) r = false ->
  MustRegister c r = Ok (r ++ [desc c])%list.
Proof. intros Hok Hno. unfold MustRegister, Register. by rewrite Hok, Hno. Qed.

Lemma MustRegister_taken c (r : Registry) :
  registered (fqName (desc c)) r = true -> exists msg, MustRegister c r = Panic msg.
Proof.
  intros Hin. unfold MustRegister, Register. rewrite Hin.
  destruct (negb (descOk (desc c))); eauto.
Qed.

(** Start-up on a registry that holds none of the four names. *)
Lemma init_from (r0 : Registry) :
  (forall name, In name (map fst code_surface) -> registered name r0 = false) ->
  init (with_registry r0 vars)
  = Ok (with_registry
          (r0 ++ [desc totalSubmissionCounterVec;
                  desc totalDockerFailExitCounterVec;
                  desc totalDockerSuccessExitCounterVec;
                  desc totalFailedLoginsVec])%list vars).
Proof.
  intros Hfree. unfold init. cbn [registry submissions dockerFail dockerSuccess
                                  failedLogins with_registry vars].
  rewrite MustRegister_fresh; [|reflexivity|apply Hfree; cbn; tauto]. cbn [mbind result_bind rbind].
  rewrite MustRegister_fresh;
    [|reflexivity|rewrite registered_app, Hfree by (cbn; tauto); reflexivity].
  cbn [mbind result_bind rbind].
  rewrite MustRegister_fresh;
    [|reflexivity|rewrite !registered_app, Hfree by (cbn; tauto); reflexivity].
  cbn [mbind result_bind rbind].
  rewrite MustRegister_fresh;
    [|reflexivity|rewrite !registered_app, Hfree by (cbn; tauto); reflexivity].
  cbn [mbind result_bind rbind]. by rewrite <- !app_assoc.
Qed.

(** C8, amended: on a registry that does not hold their names yet,
    start-up succeeds and adds to the surface exactly the counters
    [worker_submissions_pushed_total] {task_id},
    [worker_submissions_failed_total] {task_id, kind},
    [worker_submissions_success_total] {task_id, kind} and
    [auth_logins_failed_logins] (no labels), each once (registering them a
    second time panics, as it does at any later moment).  From then on the
    surface stays the same, and between any two moments of the process, in
    order, no counter value decreases. *)
Theorem metrics_surface_of_code (r0 : Registry) :
  (forall name, In name (map fst code_surface) -> registered name r0 = false) ->
  exists s, init (with_registry r0 vars) = Ok s
    /\ surface s = (surface (with_registry r0 vars) ++ code_surface)%list
    /\ (NoDup (map fst (surface (with_registry r0 vars))) ->
        NoDup (map fst (surface s)))
    /\ (exists msg, init s = Panic msg)
    /\ forall ops1 s1,
         run ops1 s = Ok s1 ->
         surface s1 = surface s
         /\ (exists msg, init s1 = Panic msg)
         /\ forall ops2 s2,
              run ops2 s1 = Ok s2 ->
              non_decreasing s1 s2 /\ surface s2 = surface s.
Proof.
  intros Hfree. eexists. split; [by apply init_from|].
  assert (Htaken : forall s1 : State,
             registry s1
             = (r0 ++ [desc totalSubmissionCounterVec;
                       desc totalDockerFailExitCounterVec;
                       desc totalDockerSuccessExitCounterVec;
                       desc totalFailedLoginsVec])%list ->
             desc (submissions s1) = desc totalSubmissionCounterVec ->
             exists msg, init s1 = Panic msg).
  { intros s1 Hr Hd. unfold init.
    destruct (MustRegister_taken (submissions s1) (registry s1)) as [msg Hm].
    - rewrite Hr, Hd, registered_app. cbn. apply orb_true_r.
    - exists msg. by rewrite Hm. }
  split; [|split; [|split]].
  - unfold surface. cbn [registry with_registry]. by rewrite map_app.
  - unfold surface. cbn [registry with_registry]. rewrite !map_app, !map_map.
    intros Hnd. apply NoDup_app. split; [done|]. split.
    + intros name Hin Hcode. apply list_elem_of_In in Hin, Hcode.
      revert Hin. apply (registered_In name r0), Hfree. exact Hcode.
    + apply (bool_decide_unpack _). vm_compute. reflexivity.
  - by apply Htaken.
  - intros ops1 s1 Hrun1.
    destruct (run_non_decreasing _ _ _ Hrun1) as [_ R1].
    split; [unfold surface; by rewrite R1|]. split.
    + apply Htaken; [done|].
      apply (run_desc _ _ _ Submissions Hrun1).
    + intros ops2 s2 Hrun2.
      destruct (run_non_decreasing _ _ _ Hrun2) as [Hmono R2].
      split; [done|]. unfold surface. by rewrite R2, R1.
Qed.

(** Start-up of a process whose registry is empty. *)
Lemma metrics_surface_of_code_witness :
  exists s, init vars = Ok s /\ surface s = code_surface.
Proof.
  destruct (metrics_surface_of_code []) as (s & Hs & Hsurf & _).
  - intros name _. reflexivity.
  - exists s. split; [exact Hs|exact Hsurf].
Defined.

End MetricsFacts.

(** ** The account handlers *)

Module AccountFacts.
Import App.

Section Handlers.

Context {S : Type} `{UserStore S} `{Env}.

(** Rendering, setting the status and sending mail leave the store and
    the record of store calls alone. *)
Lemma Render_frame v (w : World S) :
  store (snd (Render v w)) = store w /\ calls (snd (Render v w)) = calls w.
Proof.
  destruct v as [code txt err|u]; cbn; [done|].
  by destruct (RenderUser u).
Qed.

Lemma Render_Err_written code txt err (w : World S) :
  written (snd (Render (ErrResponse code txt err) w))
  = (written w ++ [(code, ErrResponse code txt err)])%list.
Proof. reflexivity. Qed.

Lemma sendConfirmEmailForUser_frame from u (w : World S) :
  store (snd (sendConfirmEmailForUser from u w)) = store w
  /\ calls (snd (sendConfirmEmailForUser from u w)) = calls w.
Proof.
  unfold sendConfirmEmailForUser.
  destruct (NewEmailFromTemplate _) as [msg|err]; [|done].
  by destruct (Send msg (mailer w)).
Qed.

(** Case analysis on a rendering or a mail, keeping what it preserves. *)
Ltac case_effect :=
  match goal with
  | |- context [match Render ?v ?w with _ => _ end] =>
      let Hf := fresh "Hf" in
      pose proof (Render_frame v w) as Hf;
      destruct (Render v w) as [[?|] ?]; cbn [snd] in Hf; destruct Hf
  | |- context [match sendConfirmEmailForUser ?f ?u ?w with _ => _ end] =>
      let Hf := fresh "Hf" in
      pose proof (sendConfirmEmailForUser_frame f u w) as Hf;
      destruct (sendConfirmEmailForUser f u w) as [[?|] ?]; cbn [snd] in Hf;
      destruct Hf
  | |- context [snd (Render ?v ?w)] =>
      let Hf := fresh "Hf" in
      pose proof (Render_frame v w) as Hf; destruct Hf;
      generalize dependent (snd (Render v w)); intros
  end.

(** Once the store has answered the [Create] call, nothing the handler
    does touches the store or calls it again. *)
Lemma CreateHandler_effects body (w : World S) :
  match BindCreate body with
  | inr _ =>
      store (CreateHandler body w) = store w
      /\ calls (CreateHandler body w) = calls w
  | inl data =>
      exists u,
        store (CreateHandler body w) = snd (Create u (store w))
        /\ calls (CreateHandler body w) = (calls w ++ [CallCreate u])%list
        /\ model.Root u = false
        /\ model.ConfirmEmailToken u
           = null.StringFrom (fst (GenerateToken 32 (rng w)))
  end.
Proof.
  unfold CreateHandler. destruct (BindCreate body) as [data|err].
  2: { apply Render_frame. }
  destruct (GenerateToken 32 (rng w)) as [tok e] eqn:Etok. cbn [fst].
  match goal with |- context [CallCreate ?u] => exists u end.
  split; [|split; [|split; reflexivity]].
  - cbn [with_rng store].
    destruct (Create _ (store w)) as [[newUser|err] s]; cbn [snd];
      repeat case_effect; try destruct (negb _); repeat case_effect;
      cbn in *; congruence.
  - cbn [with_rng store].
    destruct (Create _ (store w)) as [[newUser|err] s]; cbn [snd];
      repeat case_effect; try destruct (negb _); repeat case_effect;
      cbn in *; congruence.
Qed.

Lemma refuse code txt err id (w : World S) :
  refused_with code id w
    (snd (Render (ErrResponse code txt err) (with_store (store w) (CallGet id) w))).
Proof. repeat split. by exists txt, err. Qed.

(** *** [CreateHandler] *)

Section TokenContract.

(** The contract of [auth.GenerateToken]: a token of the requested
    length. *)
Hypothesis GenerateToken_length :
  forall n e, String.length (fst (GenerateToken n e)) = n.

(** C9: whatever the request body holds, a request that
    [CreateHandler] accepts (that binds) leads to exactly one [Create]
    call on the store, for a record whose [Root] is false and whose
    [ConfirmEmailToken] is the valid (non-NULL), freshly generated token
    of 32 characters; the store after the request is the one this
    [Create] call leaves. *)
Theorem CreateHandler_never_root body data (w : World S) :
  BindCreate body = inl data ->
  exists u,
    calls (CreateHandler body w) = (calls w ++ [CallCreate u])%list
    /\ store (CreateHandler body w) = snd (Create u (store w))
    /\ model.Root u = false
    /\ model.ConfirmEmailToken u
       = null.StringFrom (fst (GenerateToken 32 (rng w)))
    /\ null.Valid (model.ConfirmEmailToken u) = true
    /\ String.length (null.Str (model.ConfirmEmailToken u)) = 32.
Proof.
  intros Hbind. pose proof (CreateHandler_effects body w) as He.
  rewrite Hbind in He. destruct He as (u & Hs & Hc & Hroot & Htok).
  exists u. repeat split; try done.
  - by rewrite Htok.
  - rewrite Htok. cbn. apply GenerateToken_length.
Qed.

End TokenContract.

(** *** [EditHandler] *)

Lemma EditHandler_not_found claims body (w : World S) err :
  Get (LoginID claims) (store w) = inr err ->
  refused_with 404 (LoginID claims) w (EditHandler claims body w).
Proof. intros HG. unfold EditHandler. rewrite HG. apply refuse. Qed.

Lemma EditHandler_bad_body claims body (w : World S) user err :
  Get (LoginID claims) (store w) = inl user ->
  BindAccount body = inr err ->
  refused_with 400 (LoginID claims) w (EditHandler claims body w).
Proof. intros HG HB. unfold EditHandler. rewrite HG, HB. apply refuse. Qed.

Lemma EditHandler_wrong_password claims body (w : World S) user data :
  Get (LoginID claims) (store w) = inl user ->
  BindAccount body = inl data ->
  OldPlainPassword data = ""
  \/ CheckPasswordHash (OldPlainPassword data) (model.EncryptedPassword user) = false ->
  refused_with 400 (LoginID claims) w (EditHandler claims body w).
Proof.
  intros HG HB Hpw. unfold EditHandler. rewrite HG, HB.
  destruct (String.eqb (OldPlainPassword data) "") eqn:Eempty.
  { apply refuse. }
  destruct Hpw as [Hempty|Hcheck].
  { apply String.eqb_neq in Eempty. done. }
  rewrite Hcheck. apply refuse.
Qed.

(** Whenever the handler gets past its three refusals, the old password
    was given and matched the stored hash. *)
Lemma EditHandler_cases claims body (w : World S) :
  (exists code, refused_with code (LoginID claims) w (EditHandler claims body w))
  \/ (exists user data,
        Get (LoginID claims) (store w) = inl user
        /\ BindAccount body = inl data
        /\ OldPlainPassword data <> ""
        /\ CheckPasswordHash (OldPlainPassword data)
                             (model.EncryptedPassword user) = true).
Proof.
  destruct (Get (LoginID claims) (store w)) as [user|err] eqn:HG.
  2: { left. eexists. eapply EditHandler_not_found, HG. }
  destruct (BindAccount body) as [data|err] eqn:HB.
  2: { left. eexists. eapply EditHandler_bad_body; eauto. }
  destruct (String.eqb (OldPlainPassword data) "") eqn:Eempty.
  { apply String.eqb_eq in Eempty. left. eexists.
    eapply EditHandler_wrong_password; eauto. }
  destruct (CheckPasswordHash (OldPlainPassword data)
                              (model.EncryptedPassword user)) eqn:Hcheck.
  2: { left. eexists. eapply EditHandler_wrong_password; eauto. }
  right. exists user, data. apply String.eqb_neq in Eempty. done.
Qed.

(** C10, amended: for a request of a user that is in the store, an
    empty old password and an old password that does not match the
    stored hash are answered with one 400 Bad Request, the store is left
    as it was and [Update] is not called; when the user is not in the
    store the answer is 404 Not Found, with the store untouched as well.
    An [Update] call and a changed store occur only after the old
    password was given and matched. *)
Theorem EditHandler_atomic claims body (w : World S) :
  let id := LoginID claims in
  let w' := EditHandler claims body w in
  (forall user data,
      Get id (store w) = inl user ->
      BindAccount body = inl data ->
      OldPlainPassword data = ""
      \/ CheckPasswordHash (OldPlainPassword data)
                           (model.EncryptedPassword user) = false ->
      refused_with 400 id w w')
  /\ (forall err, Get id (store w) = inr err -> refused_with 404 id w w')
  /\ (forall u,
        In (CallUpdate u) (calls w') -> ~ In (CallUpdate u) (calls w) ->
        exists user data,
          Get id (store w) = inl user
          /\ BindAccount body = inl data
          /\ OldPlainPassword data <> ""
          /\ CheckPasswordHash (OldPlainPassword data)
                               (model.EncryptedPassword user) = true)
  /\ (store w' <> store w ->
      exists user data,
        Get id (store w) = inl user
        /\ BindAccount body = inl data
        /\ OldPlainPassword data <> ""
        /\ CheckPasswordHash (OldPlainPassword data)
                             (model.EncryptedPassword user) = true).
Proof.
  cbv zeta. split; [|split; [|split]].
  - intros user data. apply EditHandler_wrong_password.
  - intros err. apply EditHandler_not_found.
  - intros u Hin Hnot.
    destruct (EditHandler_cases claims body w) as [[code (_ & _ & Hc)]|Hok];
      [|exact Hok].
    rewrite Hc in Hin. apply in_app_or in Hin as [Hin|[Hin|[]]]; [done|discriminate].
  - intros Hne.
    destruct (EditHandler_cases claims body w) as [[code (_ & Hs & _)]|Hok];
      [done|exact Hok].
Qed.

End Handlers.

(** *** The handlers at work on the in-memory store *)

Lemma token_chars_length n seed : String.length (token_chars n seed) = n.
Proof. induction n as [|n IH]; cbn; [done|by rewrite IH]. Qed.

(** A request that asks for a root account with a confirmed address gets
    neither. *)
Lemma CreateHandler_never_root_witness :
  model.Root (Req_User create_mallory) = true
  /\ exists u,
      calls (CreateHandler (H0 := TestEnv) (Some create_mallory, None) (world0 ∅))
      = [CallCreate u]
      /\ store (CreateHandler (H0 := TestEnv) (Some create_mallory, None) (world0 ∅))
         = snd (Create u ∅)
      /\ model.Root u = false
      /\ model.ConfirmEmailToken u = null.StringFrom (token_chars 32 0)
      /\ null.Valid (model.ConfirmEmailToken u) = true
      /\ String.length (null.Str (model.ConfirmEmailToken u)) = 32.
Proof.
  split; [reflexivity|].
  apply (CreateHandler_never_root (H0 := TestEnv)
           (fun n e => token_chars_length n e)
           (Some create_mallory, None) create_mallory (world0 ∅)).
  reflexivity.
Defined.

(** C10 as stated fails: with an empty old password, a request whose user
    is not in the store is answered 404, not 400. *)
Lemma EditHandler_empty_password_not_400 :
  BindAccount (Env := TestEnv) (None, Some (edit_email "")) = inl (edit_email "")
  /\ OldPlainPassword (edit_email "") = ""
  /\ http_status (EditHandler (H0 := TestEnv) (claims_of 1)
                              (None, Some (edit_email "")) (world0 ∅))
     = Some 404%Z
  /\ http_status (EditHandler (H0 := TestEnv) (claims_of 1)
                              (None, Some (edit_email "")) (world0 ∅))
     <> Some 400%Z.
Proof. repeat split. discriminate. Qed.

(** A wrong old password against the stored record of alice. *)
Lemma EditHandler_atomic_witness :
  refused_with 400 1 (world0 {[1%Z := alice]})
    (EditHandler (H0 := TestEnv) (claims_of 1) (None, Some (edit_email "guess"))
                 (world0 {[1%Z := alice]})).
Proof.
  apply (proj1 (EditHandler_atomic (H0 := TestEnv) (claims_of 1)
                  (None, Some (edit_email "guess")) (world0 {[1%Z := alice]}))
               alice (edit_email "guess")).
  - reflexivity.
  - reflexivity.
  - right. reflexivity.
Defined.

End AccountFacts.

(** ** The result classifier and the result reporter *)

Module GradingFacts.
Import Grading.

(** C2: with no launch error and no timeout the outcome is decided by the
    exit code alone: 0 gives [Passed], anything else gives [Failed] with a
    reason, and no captured output turns a nonzero exit into [Passed]. *)
Theorem classify_by_exit_code (e : Execution) :
  launchError e = None -> timedOut e = false ->
  (exitCode e = 0%Z -> forall out, classify (with_output out e) = Passed)
  /\ (exitCode e <> 0%Z ->
      forall out, exists reason,
        classify (with_output out e) = Failed reason
        /\ classify (with_output out e) <> Passed).
Proof.
  intros Hl Ht. unfold classify. cbn. rewrite Hl, Ht. split.
  - intros -> out. reflexivity.
  - intros Hne out. apply Z.eqb_neq in Hne. rewrite Hne.
    eexists. split; [reflexivity|discriminate].
Qed.

(** An exit status of 3 fails, whatever the program printed. *)
Lemma classify_by_exit_code_witness :
  exists reason,
    classify (with_output "PASSED: all tests ok" (exited 3 "")) = Failed reason
    /\ classify (with_output "PASSED: all tests ok" (exited 3 "")) <> Passed.
Proof.
  apply (proj2 (classify_by_exit_code (exited 3 "") eq_refl eq_refl)).
  discriminate.
Defined.













End GradingFacts.


(** ** The other account handlers, and the handlers' mail and responses *)

Module AppAccountFacts.
Import App AppAccount.

Section Handlers.

Context {S : Type} `{UserStore S} `{Env} `{AvatarFiles}.

(** Rendering changes nothing but the response. *)
Lemma Render_keeps v (w : World S) :
  store (snd (Render v w)) = store w
  /\ calls (snd (Render v w)) = calls w
  /\ rng (snd (Render v w)) = rng w
  /\ mailer (snd (Render v w)) = mailer w.
Proof.
  destruct v as [code txt err|u]; cbn; [done|].
  by destruct (RenderUser u).
Qed.

(** Mailing changes nothing but the mail transport. *)
Lemma sendConfirmEmailForUser_keeps from u (w : World S) :
  let r := sendConfirmEmailForUser from u w in
  store (snd r) = store w
  /\ calls (snd r) = calls w
  /\ rng (snd r) = rng w
  /\ written (snd r) = written w
  /\ statusCtx (snd r) = statusCtx w
  /\ mailer (snd r) = mail_sent from u (mailer w)
  /\ fst r = mail_error from u (mailer w).
Proof.
  unfold sendConfirmEmailForUser, mail_sent, mail_error, confirm_message. cbn zeta.
  destruct (NewEmailFromTemplate _) as [msg|err]; [|done].
  by destruct (Send msg (mailer w)).
Qed.

(** What [EditHandler] does once the old password has matched. *)
Lemma EditHandler_pass claims body (w : World S) user data :
  Get (LoginID claims) (store w) = inl user ->
  BindAccount body = inl data ->
  OldPlainPassword data <> "" ->
  CheckPasswordHash (OldPlainPassword data) (model.EncryptedPassword user) = true ->
  let changed := emailHasChanged data user in
  let u := updated_user data user (fst (GenerateToken 32 (rng w))) in
  let w' := EditHandler claims body w in
  calls w' = (calls w ++ [CallGet (LoginID claims); CallUpdate u])%list
  /\ store w' = snd (Update u (store w))
  /\ rng w' = (if changed then snd (GenerateToken 32 (rng w)) else rng w)
  /\ mailer w'
     = (if changed && bool_decide (fst (Update u (store w)) = None)
        then mail_sent (EmailFrom Config) u (mailer w) else mailer w)
  /\ written w'
     = (written w ++
        [match fst (Update u (store w)) with
         | Some err => (StatusInternalServerError, ErrInternalServerErrorWithDetails err)
         | None =>
             match (if changed then mail_error (EmailFrom Config) u (mailer w) else None) with
             | Some err => (StatusInternalServerError, ErrInternalServerErrorWithDetails err)
             | None => edit_response u
             end
         end])%list.
Proof.
  intros HG HB Hne Hck. cbv zeta. unfold EditHandler. rewrite HG, HB.
  apply String.eqb_neq in Hne. rewrite Hne, Hck. cbn [negb].
  unfold updated_user, emailHasChanged, passwordHasChanged, edit_response.
  change (rng (with_store (store w) (CallGet (LoginID claims)) w)) with (rng w).
  destruct (GenerateToken 32 (rng w)) as [tok e] eqn:Etok.
  destruct (String.eqb (Email (Account data)) "");
    destruct (String.eqb (Email (Account data)) (model.Email user));
    destruct (String.eqb (PlainPassword (Account data)) "");
    cbn [negb fst snd with_rng with_store store rng andb];
    match goal with |- context [Update ?u (store w)] =>
      destruct (Update u (store w)) as [[err|] s] eqn:EU end;
    cbn [fst snd];
    try match goal with |- context [sendConfirmEmailForUser ?f ?u ?w0] =>
      pose proof (sendConfirmEmailForUser_keeps f u w0) as Hm; cbv zeta in Hm;
      destruct (sendConfirmEmailForUser f u w0) as [[merr|] wm];
      cbn [fst snd] in Hm;
      destruct Hm as (Hm1 & Hm2 & Hm3 & Hm4 & Hm5 & Hm6 & Hm7);
      cbn [mailer with_store with_rng] in Hm6, Hm7; rewrite <- ?Hm7 end;
    try match goal with |- context [RenderUser ?u] =>
      destruct (RenderUser u) as [rerr|] eqn:ER end;
    cbn; rewrite ?ER; cbn; rewrite ?bool_decide_eq_true_2 by done;
    rewrite ?bool_decide_eq_false_2 by done; cbn;
    rewrite <- ?app_assoc; cbn;
    repeat split; try congruence;
    cbn in *; rewrite <- ?app_assoc in *; cbn in *; congruence.
Qed.

(** What [CreateHandler] does, path by path. *)
Lemma CreateHandler_paths body (w : World S) :
  let w' := CreateHandler body w in
  match BindCreate body with
  | inr err =>
      written w' = (written w ++ [(StatusBadRequest, ErrBadRequestWithDetails err)])%list
      /\ store w' = store w /\ calls w' = calls w
      /\ rng w' = rng w /\ mailer w' = mailer w
  | inl data =>
      let u := created_user data (fst (GenerateToken 32 (rng w))) in
      store w' = snd (Create u (store w))
      /\ calls w' = (calls w ++ [CallCreate u])%list
      /\ rng w' = snd (GenerateToken 32 (rng w))
      /\ match fst (Create u (store w)) with
         | inr err =>
             written w' = (written w ++ [(StatusUnprocessableEntity, ErrRender err)])%list
             /\ mailer w' = mailer w
         | inl newUser =>
             match RenderUser newUser with
             | Some err =>
                 written w' = (written w ++ [(StatusUnprocessableEntity, ErrRender err)])%list
                 /\ mailer w' = mailer w
             | None =>
                 if DebuggingEnabled Config then
                   written w' = (written w ++ [(StatusCreated, UserResponse newUser)])%list
                   /\ mailer w' = mailer w
                 else
                   mailer w' = mail_sent (EmailFrom Config) newUser (mailer w)
                   /\ written w'
                      = (written w ++ (StatusCreated, UserResponse newUser) ::
                           match mail_error (EmailFrom Config) newUser (mailer w) with
                           | Some err => [(StatusInternalServerError,
                                           ErrInternalServerErrorWithDetails err)]
                           | None => []
                           end)%list
             end
         end
  end.
Proof.
  cbv zeta. unfold CreateHandler, created_user.
  destruct (BindCreate body) as [data|err]; [|by cbn].
  destruct (GenerateToken 32 (rng w)) as [tok e] eqn:Etok.
  cbn [fst snd with_rng store].
  match goal with |- context [Create ?u (store w)] =>
    destruct (Create u (store w)) as [[newUser|err] s] eqn:EC end;
    cbn [fst snd]; [|by cbn].
  cbn [Render]. destruct (RenderUser newUser) as [rerr|] eqn:ER; [by cbn|].
  destruct (DebuggingEnabled Config); cbn [negb]; [by cbn|].
  match goal with |- context [sendConfirmEmailForUser ?f ?u ?w0] =>
    pose proof (sendConfirmEmailForUser_keeps f u w0) as Hm; cbv zeta in Hm;
    destruct (sendConfirmEmailForUser f u w0) as [[merr|] wm];
    cbn [fst snd] in Hm;
    destruct Hm as (Hm1 & Hm2 & Hm3 & Hm4 & Hm5 & Hm6 & Hm7) end;
    cbn in *; rewrite <- Hm7; rewrite <- ?app_assoc; cbn;
    repeat split; try congruence;
    rewrite Hm4, <- ?app_assoc; try rewrite app_nil_r; done.
Qed.

(** [EditHandler] either refuses the request, touching nothing but the
    response and the call log, or the old password was given and matched. *)
Lemma EditHandler_refusals claims body (w : World S) :
  (calls (EditHandler claims body w) = (calls w ++ [CallGet (LoginID claims)])%list
   /\ store (EditHandler claims body w) = store w
   /\ rng (EditHandler claims body w) = rng w
   /\ mailer (EditHandler claims body w) = mailer w)
  \/ (exists user data,
        Get (LoginID claims) (store w) = inl user
        /\ BindAccount body = inl data
        /\ OldPlainPassword data <> ""
        /\ CheckPasswordHash (OldPlainPassword data)
                             (model.EncryptedPassword user) = true).
Proof.
  unfold EditHandler.
  destruct (Get (LoginID claims) (store w)) as [user|err] eqn:HG; [|by left].
  destruct (BindAccount body) as [data|err] eqn:HB; [|by left].
  destruct (String.eqb (OldPlainPassword data) "") eqn:Eempty; [by left|].
  destruct (CheckPasswordHash (OldPlainPassword data)
                              (model.EncryptedPassword user)) eqn:Hcheck; [|by left].
  right. exists user, data. apply String.eqb_neq in Eempty. done.
Qed.

Lemma emailHasChanged_true data user :
  emailHasChanged data user = true ->
  Email (Account data) <> "" /\ Email (Account data) <> model.Email user.
Proof.
  unfold emailHasChanged.
  destruct (String.eqb (Email (Account data)) "") eqn:E1; cbn; [done|].
  destruct (String.eqb (Email (Account data)) (model.Email user)) eqn:E2; cbn; [done|].
  intros _. split; by apply String.eqb_neq.
Qed.

(** X1: the record [EditHandler] writes back is the stored one of the
    requesting user with at most three fields replaced: the email address
    and the confirmation token (together, when the request names another
    address) and the password hash (when the request carries a new
    password).  The key, the root flag, the names, the avatar and the
    study data are never taken from the request. *)
Theorem EditHandler_update_fields claims body (w : World S) user data u :
  Get (LoginID claims) (store w) = inl user ->
  BindAccount body = inl data ->
  In (CallUpdate u) (calls (EditHandler claims body w)) ->
  ~ In (CallUpdate u) (calls w) ->
  model.ID u = model.ID user
  /\ model.Root u = model.Root user
  /\ model.FirstName u = model.FirstName user
  /\ model.LastName u = model.LastName user
  /\ model.AvatarURL u = model.AvatarURL user
  /\ model.StudentNumber u = model.StudentNumber user
  /\ model.Semester u = model.Semester user
  /\ model.Subject u = model.Subject user
  /\ model.Language u = model.Language user
  /\ model.Email u
     = (if emailHasChanged data user then Email (Account data) else model.Email user)
  /\ model.ConfirmEmailToken u
     = (if emailHasChanged data user
        then null.StringFrom (fst (GenerateToken 32 (rng w)))
        else model.ConfirmEmailToken user)
  /\ model.EncryptedPassword u
     = (if String.eqb (PlainPassword (Account data)) ""
        then model.EncryptedPassword user
        else EncryptedPassword (Account data)).
Proof.
  intros HG HB Hin Hnin.
  destruct (EditHandler_refusals claims body w)
    as [(Hc & _)|(user' & data' & HG' & HB' & Hne & Hck)].
  { rewrite Hc in Hin. apply in_app_or in Hin as [Hin|[Hin|[]]]; [done|discriminate]. }
  rewrite HG in HG'. rewrite HB in HB'.
  injection HG' as <-. injection HB' as <-.
  destruct (EditHandler_pass claims body w user data HG HB Hne Hck) as (Hc & _).
  rewrite Hc in Hin.
  apply in_app_or in Hin as [Hin|[Hin|[Hin|[]]]]; [done|discriminate|].
  injection Hin as <-.
  unfold updated_user, passwordHasChanged.
  by destruct (emailHasChanged data user),
              (String.eqb (PlainPassword (Account data)) "").
Qed.

(** X2: [EditHandler] draws a token and mails for a change of the email
    address, and only then.  When a request that passes the password check
    names a non-empty address other than the stored one, one token is
    taken from [GenerateToken 32], the record written back carries the new
    address and that token, and the confirmation mail for this record is
    attempted exactly when the store accepted the update.  In every other
    case the token source and the mail transport are left as they were. *)
Theorem EditHandler_mails_for_new_address claims body (w : World S) :
  let w' := EditHandler claims body w in
  (forall user data,
      Get (LoginID claims) (store w) = inl user ->
      BindAccount body = inl data ->
      OldPlainPassword data <> "" ->
      CheckPasswordHash (OldPlainPassword data) (model.EncryptedPassword user) = true ->
      Email (Account data) <> "" ->
      Email (Account data) <> model.Email user ->
      exists u,
        calls w' = (calls w ++ [CallGet (LoginID claims); CallUpdate u])%list
        /\ model.Email u = Email (Account data)
        /\ model.ConfirmEmailToken u
           = null.StringFrom (fst (GenerateToken 32 (rng w)))
        /\ rng w' = snd (GenerateToken 32 (rng w))
        /\ mailer w'
           = match fst (Update u (store w)) with
             | None => mailer (snd (sendConfirmEmailForUser (EmailFrom Config) u w))
             | Some _ => mailer w
             end)
  /\ (~ (exists user data,
           Get (LoginID claims) (store w) = inl user
           /\ BindAccount body = inl data
           /\ OldPlainPassword data <> ""
           /\ CheckPasswordHash (OldPlainPassword data)
                                (model.EncryptedPassword user) = true
           /\ Email (Account data) <> ""
           /\ Email (Account data) <> model.Email user) ->
      rng w' = rng w /\ mailer w' = mailer w).
Proof.
  cbv zeta. split.
  - intros user data HG HB Hne Hck E1 E2.
    destruct (EditHandler_pass claims body w user data HG HB Hne Hck)
      as (Hc & _ & Hr & Hm & _).
    assert (E : emailHasChanged data user = true).
    { unfold emailHasChanged.
      apply String.eqb_neq in E1, E2. by rewrite E1, E2. }
    rewrite E in Hr, Hm.
    exists (updated_user data user (fst (GenerateToken 32 (rng w)))).
    repeat split; try done.
    + unfold updated_user. rewrite E. by destruct (passwordHasChanged data).
    + unfold updated_user. rewrite E. by destruct (passwordHasChanged data).
    + rewrite Hm. cbn [andb].
      pose proof (sendConfirmEmailForUser_keeps (EmailFrom Config)
                    (updated_user data user (fst (GenerateToken 32 (rng w)))) w) as Hk.
      cbv zeta in Hk. destruct Hk as (_ & _ & _ & _ & _ & -> & _).
      destruct (fst (Update _ (store w))) as [err|].
      * by rewrite bool_decide_eq_false_2.
      * by rewrite bool_decide_eq_true_2.
  - intros Hnot.
    destruct (EditHandler_refusals claims body w)
      as [(_ & _ & Hr & Hm)|(user & data & HG & HB & Hne & Hck)]; [done|].
    destruct (EditHandler_pass claims body w user data HG HB Hne Hck)
      as (_ & _ & Hr & Hm & _).
    destruct (emailHasChanged data user) eqn:E; [|done].
    destruct (emailHasChanged_true _ _ E) as [E1 E2].
    destruct Hnot. by exists user, data.
Qed.

(** X3: the update is not undone when the confirmation mail fails.  After
    a change of the email address that the store accepted, a mail error
    is answered with one 500 Internal Server Error while the store keeps
    the new record. *)
Theorem EditHandler_mail_failure_keeps_update claims body (w : World S) user data u err :
  Get (LoginID claims) (store w) = inl user ->
  BindAccount body = inl data ->
  OldPlainPassword data <> "" ->
  CheckPasswordHash (OldPlainPassword data) (model.EncryptedPassword user) = true ->
  emailHasChanged data user = true ->
  u = updated_user data user (fst (GenerateToken 32 (rng w))) ->
  fst (Update u (store w)) = None ->
  fst (sendConfirmEmailForUser (EmailFrom Config) u w) = Some err ->
  written (EditHandler claims body w)
  = (written w ++ [(StatusInternalServerError,
                    ErrInternalServerErrorWithDetails err)])%list
  /\ store (EditHandler claims body w) = snd (Update u (store w))
  /\ In (CallUpdate u) (calls (EditHandler claims body w)).
Proof.
  intros HG HB Hne Hck E -> HU HS.
  destruct (EditHandler_pass claims body w user data HG HB Hne Hck)
    as (Hc & Hs & _ & _ & Hw).
  pose proof (sendConfirmEmailForUser_keeps (EmailFrom Config)
                (updated_user data user (fst (GenerateToken 32 (rng w)))) w) as Hk.
  cbv zeta in Hk. destruct Hk as (_ & _ & _ & _ & _ & _ & Hk).
  rewrite HS in Hk. rewrite Hw, HU, E, <- Hk, Hc. repeat split; [done|].
  apply in_or_app. right. right. by left.
Qed.

(** X4: a successful edit is answered with status 204 and, in spite of
    the status, with the record as written back in the body. *)
Theorem EditHandler_success_response claims body (w : World S) user data u :
  Get (LoginID claims) (store w) = inl user ->
  BindAccount body = inl data ->
  OldPlainPassword data <> "" ->
  CheckPasswordHash (OldPlainPassword data) (model.EncryptedPassword user) = true ->
  u = updated_user data user (fst (GenerateToken 32 (rng w))) ->
  fst (Update u (store w)) = None ->
  (emailHasChanged data user = true ->
   fst (sendConfirmEmailForUser (EmailFrom Config) u w) = None) ->
  RenderUser u = None ->
  written (EditHandler claims body w)
  = (written w ++ [(StatusNoContent, UserResponse u)])%list
  /\ store (EditHandler claims body w) = snd (Update u (store w)).
Proof.
  intros HG HB Hne Hck -> HU HS HR.
  destruct (EditHandler_pass claims body w user data HG HB Hne Hck)
    as (_ & Hs & _ & _ & Hw).
  pose proof (sendConfirmEmailForUser_keeps (EmailFrom Config)
                (updated_user data user (fst (GenerateToken 32 (rng w)))) w) as Hk.
  cbv zeta in Hk. destruct Hk as (_ & _ & _ & _ & _ & _ & Hk).
  split; [|done]. rewrite Hw, HU. unfold edit_response. rewrite HR.
  destruct (emailHasChanged data user); [|done].
  by rewrite <- Hk, HS.
Qed.

(** X5: [CreateHandler] mails for an account it has created, and only
    then.  Outside debugging mode, once the store has created the record
    and the response is rendered, the confirmation mail for the record the
    store returned is attempted: what the mail template makes of the
    confirmation message for that record is sent once.  In debugging mode,
    and whenever the body does not parse, the store refuses the record or
    the response cannot be rendered, the mail transport is left as it
    was. *)
Theorem CreateHandler_mails_created_user body (w : World S) :
  let w' := CreateHandler body w in
  (forall data newUser,
      BindCreate body = inl data ->
      fst (Create (created_user data (fst (GenerateToken 32 (rng w)))) (store w))
      = inl newUser ->
      RenderUser newUser = None ->
      DebuggingEnabled Config = false ->
      mailer w' = mailer (snd (sendConfirmEmailForUser (EmailFrom Config) newUser w))
      /\ (forall msg,
            NewEmailFromTemplate (confirm_message (EmailFrom Config) newUser) = inl msg ->
            mailer w' = snd (Send msg (mailer w)))
      /\ (forall err,
            NewEmailFromTemplate (confirm_message (EmailFrom Config) newUser) = inr err ->
            mailer w' = mailer w))
  /\ (DebuggingEnabled Config = true -> mailer w' = mailer w)
  /\ (forall err, BindCreate body = inr err -> mailer w' = mailer w)
  /\ (forall data,
        BindCreate body = inl data ->
        match fst (Create (created_user data (fst (GenerateToken 32 (rng w))))
                          (store w)) with
        | inr _ => mailer w' = mailer w
        | inl newUser => RenderUser newUser <> None -> mailer w' = mailer w
        end).
Proof.
  cbv zeta. pose proof (CreateHandler_paths body w) as HP. cbv zeta in HP.
  split; [|split; [|split]].
  - intros data newUser HB HC HR HD. rewrite HB in HP.
    destruct HP as (_ & _ & _ & HP). rewrite HC, HR, HD in HP.
    destruct HP as [HP _].
    pose proof (sendConfirmEmailForUser_keeps (EmailFrom Config) newUser w) as Hk.
    cbv zeta in Hk. destruct Hk as (_ & _ & _ & _ & _ & Hk & _).
    split; [by rewrite Hk|]. rewrite HP. unfold mail_sent.
    split; [intros msg ->|intros err ->]; done.
  - intros HD. destruct (BindCreate body) as [data|err]; [|tauto].
    destruct HP as (_ & _ & _ & HP).
    destruct (fst (Create _ (store w))) as [newUser|err]; [|tauto].
    destruct (RenderUser newUser) as [rerr|]; [tauto|].
    rewrite HD in HP. tauto.
  - intros err HB. rewrite HB in HP. tauto.
  - intros data HB. rewrite HB in HP. destruct HP as (_ & _ & _ & HP).
    destruct (fst (Create _ (store w))) as [newUser|err]; [|tauto].
    intros HR. destruct (RenderUser newUser) as [rerr|]; [tauto|done].
Qed.


(** X7: what [CreateHandler] refuses.  A body that does not parse is
    answered with one 400 before anything else happens: no token is
    drawn, the store is not called, no mail is sent.  A record the store
    refuses is answered with one 422 and no mail. *)
Theorem CreateHandler_rejections body (w : World S) :
  let w' := CreateHandler body w in
  (forall err,
      BindCreate body = inr err ->
      written w' = (written w ++ [(StatusBadRequest, ErrBadRequestWithDetails err)])%list
      /\ store w' = store w /\ calls w' = calls w
      /\ rng w' = rng w /\ mailer w' = mailer w)
  /\ (forall data err,
        BindCreate body = inl data ->
        fst (Create (created_user data (fst (GenerateToken 32 (rng w)))) (store w))
        = inr err ->
        written w' = (written w ++ [(StatusUnprocessableEntity, ErrRender err)])%list
        /\ mailer w' = mailer w).
Proof.
  cbv zeta. pose proof (CreateHandler_paths body w) as HP. cbv zeta in HP.
  split.
  - intros err HB. by rewrite HB in HP.
  - intros data err HB HC. rewrite HB in HP. destruct HP as (_ & _ & _ & HP).
    by rewrite HC in HP.
Qed.

(** X8: [ChangeAvatarHandler] goes on after a failed upload.  For a user
    that is in the store the avatar address [/api/v1/users/<id>/avatar]
    is written back in every case, also when writing the file failed and
    a 400 has already been answered; nothing is written to the response
    when both steps succeed. *)
Theorem ChangeAvatarHandler_updates_after_failed_upload
    claims upload fs (w : World S) user :
  Get (LoginID claims) (store w) = inl user ->
  let u := set_AvatarURL
             (null.StringFrom
                ("/api/v1/users/" +:+ FormatInt (model.ID user) +:+ "/avatar")) user in
  let disk := WriteToDisk (model.ID user) upload "file_data" fs in
  let r := ChangeAvatarHandler claims upload (fs, w) in
  fst r = snd disk
  /\ calls (snd r) = (calls w ++ [CallGet (LoginID claims); CallUpdate u])%list
  /\ store (snd r) = snd (Update u (store w))
  /\ written (snd r)
     = (written w
        ++ match fst disk with
           | inr err => [(StatusBadRequest, ErrBadRequestWithDetails err)]
           | inl _ => []
           end
        ++ match fst (Update u (store w)) with
           | Some err => [(StatusInternalServerError,
                           ErrInternalServerErrorWithDetails err)]
           | None => []
           end)%list.
Proof.
  intros HG. cbv zeta. unfold ChangeAvatarHandler. rewrite HG.
  destruct (WriteToDisk (model.ID user) upload "file_data" fs) as [[name|err] fs1];
    match goal with |- context [CallUpdate ?u] =>
      destruct (Update u (store w)) as [[uerr|] s] eqn:EU end;
    cbn; rewrite ?EU; cbn; rewrite <- ?app_assoc; cbn; rewrite ?app_nil_r; done.
Qed.

(** X9: [GetHandler] and [DeleteAvatarHandler] only read the user store:
    one [Get] for the identity of the access claims, no [Create], no
    [Update], the store as it was.  Deleting the avatar file therefore
    leaves the avatar address of the stored record in place, and for a
    user that is not in the store no file is touched. *)
Theorem GetHandler_DeleteAvatarHandler_read_only claims fs (w : World S) :
  (store (GetHandler claims w) = store w
   /\ calls (GetHandler claims w) = (calls w ++ [CallGet (LoginID claims)])%list)
  /\ (store (snd (DeleteAvatarHandler claims (fs, w))) = store w
      /\ calls (snd (DeleteAvatarHandler claims (fs, w)))
         = (calls w ++ [CallGet (LoginID claims)])%list
      /\ match Get (LoginID claims) (store w) with
         | inr _ => fst (DeleteAvatarHandler claims (fs, w)) = fs
         | inl user =>
             fst (DeleteAvatarHandler claims (fs, w)) = snd (DeleteFile (model.ID user) fs)
         end).
Proof.
  unfold GetHandler, DeleteAvatarHandler. split.
  - destruct (Get (LoginID claims) (store w)) as [user|err]; [|done].
    cbn. by destruct (RenderUser user).
  - destruct (Get (LoginID claims) (store w)) as [user|err]; [|done].
    by destruct (DeleteFile (model.ID user) fs) as [[err|] fs1].
Qed.

(** X10: [GetHandler] answers with the stored record of the identity in
    the access claims and of nobody else: 404 when that user is not in
    the store, otherwise one response that carries exactly the record
    [Get] returned. *)
Theorem GetHandler_own_record claims (w : World S) :
  match Get (LoginID claims) (store w) with
  | inr _ =>
      written (GetHandler claims w) = (written w ++ [(StatusNotFound, ErrNotFound)])%list
  | inl user =>
      forall v, In v (written (GetHandler claims w)) -> ~ In v (written w) ->
      forall u, snd v = UserResponse u -> u = user
  end.
Proof.
  unfold GetHandler.
  destruct (Get (LoginID claims) (store w)) as [user|err]; [|done].
  intros v Hin Hnin u Hv. cbn in Hin.
  destruct (RenderUser user); cbn in Hin;
    apply in_app_or in Hin as [Hin|[<-|[]]]; try done; cbn in Hv; congruence.
Qed.

End Handlers.

(** Alice asks for a new email address with her password. *)
Lemma EditHandler_update_fields_witness :
  let u := updated_user (edit_email "secret") alice (token_chars 32 0) in
  In (CallUpdate u)
     (calls (EditHandler (H0 := TestEnv) (claims_of 1)
               (None, Some (edit_email "secret")) (world0 {[1%Z := alice]})))
  /\ model.ID u = 1%Z /\ model.Root u = false
  /\ model.Email u = "new@uni.org"
  /\ model.EncryptedPassword u = "hash:secret".
Proof.
  cbv zeta.
  assert (In (CallUpdate (updated_user (edit_email "secret") alice (token_chars 32 0)))
            (calls (EditHandler (H0 := TestEnv) (claims_of 1)
                      (None, Some (edit_email "secret")) (world0 {[1%Z := alice]}))))
    as Hin by (right; left; reflexivity).
  split; [exact Hin|].
  destruct (EditHandler_update_fields (H0 := TestEnv) (claims_of 1)
              (None, Some (edit_email "secret")) (world0 {[1%Z := alice]})
              alice (edit_email "secret")
              (updated_user (edit_email "secret") alice (token_chars 32 0)))
    as (HID & HRoot & _ & _ & _ & _ & _ & _ & _ & HEmail & _ & HPw).
  - reflexivity.
  - reflexivity.
  - exact Hin.
  - simpl. tauto.
  - split; [exact HID|split; [exact HRoot|split; [exact HEmail|exact HPw]]].
Defined.

(** Alice's new address: one token is drawn and one mail goes to the new
    address. *)
Lemma EditHandler_mails_for_new_address_witness :
  let w' := EditHandler (H0 := TestEnv) (claims_of 1)
              (None, Some (edit_email "secret")) (world0 {[1%Z := alice]}) in
  rng w' = 1%nat /\ (To <$> mailer w') = ["new@uni.org"].
Proof.
  destruct (proj1 (EditHandler_mails_for_new_address (H0 := TestEnv) (claims_of 1)
                     (None, Some (edit_email "secret")) (world0 {[1%Z := alice]}))
                  alice (edit_email "secret"))
    as (u & Hc & _ & _ & Hr & Hm).
  - reflexivity.
  - reflexivity.
  - discriminate.
  - reflexivity.
  - discriminate.
  - discriminate.
  - cbv zeta. split; [rewrite Hr; reflexivity|reflexivity].
Defined.

(** Mallory registers: the confirmation mail goes to the address of the
    record in the store. *)
Lemma CreateHandler_mails_created_user_witness :
  (To <$> mailer (CreateHandler (H0 := TestEnv) (Some create_mallory, None) (world0 ∅)))
  = ["mallory@uni.org"].
Proof.
  destruct (proj1 (CreateHandler_mails_created_user (H0 := TestEnv)
                     (Some create_mallory, None) (world0 ∅))
                  create_mallory
                  (set_ID 1 (created_user create_mallory (token_chars 32 0))))
    as (Hm & _).
  - reflexivity.
  - reflexivity.
  - reflexivity.
  - reflexivity.
  - rewrite Hm. reflexivity.
Defined.

(** The mail server refuses the confirmation mail for alice's new address:
    the answer is a 500, and the store holds the new address. *)
Lemma EditHandler_mail_failure_keeps_update_witness :
  let w' := EditHandler (H0 := NoMailEnv) (claims_of 1)
              (None, Some (edit_email "secret")) (world1 {[1%Z := alice]}) in
  http_status w' = Some StatusInternalServerError
  /\ (model.Email <$> store w' !! 1%Z) = Some "new@uni.org".
Proof.
  destruct (EditHandler_mail_failure_keeps_update (H0 := NoMailEnv) (claims_of 1)
              (None, Some (edit_email "secret")) (world1 {[1%Z := alice]})
              alice (edit_email "secret")
              (updated_user (edit_email "secret") alice
                 (token_chars 32 0))
              "smtp: connection refused") as (Hw & Hs & _).
  - reflexivity.
  - reflexivity.
  - discriminate.
  - reflexivity.
  - reflexivity.
  - reflexivity.
  - reflexivity.
  - reflexivity.
  - cbv zeta. unfold http_status. rewrite Hw, Hs. split; reflexivity.
Defined.

(** Alice changes her email address and the mail goes out. *)
Lemma EditHandler_success_response_witness :
  http_status (EditHandler (H0 := TestEnv) (claims_of 1)
                 (None, Some (edit_email "secret")) (world0 {[1%Z := alice]}))
  = Some StatusNoContent.
Proof.
  destruct (EditHandler_success_response (H0 := TestEnv) (claims_of 1)
              (None, Some (edit_email "secret")) (world0 {[1%Z := alice]})
              alice (edit_email "secret")
              (updated_user (edit_email "secret") alice
                 (token_chars 32 0))) as (Hw & _).
  - reflexivity.
  - reflexivity.
  - discriminate.
  - reflexivity.
  - reflexivity.
  - reflexivity.
  - reflexivity.
  - reflexivity.
  - unfold http_status. rewrite Hw. reflexivity.
Defined.


(** Alice posts a form without the file field. *)
Lemma ChangeAvatarHandler_updates_after_failed_upload_witness :
  let r := ChangeAvatarHandler (H0 := TestEnv) (H1 := MemFiles) (claims_of 1) None
             (∅, world0 {[1%Z := alice]}) in
  http_status (snd r) = Some StatusBadRequest
  /\ (model.AvatarURL <$> store (snd r) !! 1%Z)
     = Some (null.StringFrom "/api/v1/users/1/avatar")
  /\ fst r = ∅.
Proof.
  destruct (ChangeAvatarHandler_updates_after_failed_upload (H0 := TestEnv)
              (H1 := MemFiles) (claims_of 1) None ∅ (world0 {[1%Z := alice]}) alice)
    as (Hf & _ & Hs & Hw); [reflexivity|].
  cbv zeta. unfold http_status. rewrite Hf, Hs, Hw. repeat split; reflexivity.
Defined.

End AppAccountFacts.

(** ** [FileServer] *)

Module RouterFacts.
Import Router.

Lemma Get_slash (rest : string) (h : Handler) (r : Mux) :
  Get (String "/" rest) h r = Ok (<[("GET", String "/" rest) := h]> r).
Proof. reflexivity. Qed.

Lemma Get_no_slash (c : ascii) (rest : string) (h : Handler) (r : Mux) :
  c <> "/"%char -> exists m, Get (String c rest) h r = Panic m.
Proof.
  intros Hc. destruct c as [[] [] [] [] [] [] [] []]; cbn; eauto.
  by destruct Hc.
Qed.

Lemma last_char_cons c s : exists l, last_char (String c s) = Some l.
Proof.
  revert c. induction s as [|d s IH]; intros c; [by exists c|].
  destruct (IH d) as [l Hl]. exists l. cbn in *. exact Hl.
Qed.

Lemma append_ne (s t u : string) : t <> "" -> s <> (s +:+ t) +:+ u.
Proof.
  intros Ht. induction s as [|c s IH].
  - destruct t as [|d t]; [done|]. discriminate.
  - intros E. apply IH. change (String c s = String c ((s +:+ t) +:+ u)) in E.
    by injection E.
Qed.

(** A call of [FileServer] that returns was given a path with a leading
    slash and without URL parameters. *)
Lemma FileServer_ok_path (r r' : Mux) (path root : string) :
  FileServer r path root = Ok r' ->
  ContainsAny path "{}*" = false /\ exists rest, path = String "/" rest.
Proof.
  unfold FileServer.
  destruct (ContainsAny path "{}*") eqn:EC; [discriminate|].
  destruct path as [|c rest]; [discriminate|].
  destruct (ascii_dec c "/") as [->|Hne]; [by eauto|].
  intros Hr. exfalso.
  destruct (String.eqb (String c rest) "/") eqn:E.
  { apply String.eqb_eq in E. injection E as -> _. done. }
  destruct (last_char_cons c rest) as [l Hl]. rewrite Hl in Hr.
  destruct (Ascii.eqb l "/").
  - destruct (Get_no_slash c (rest +:+ "*") (StaticFiles (String c rest) root) r Hne)
      as [m Hm].
    change (Get (String c (rest +:+ "*")) (StaticFiles (String c rest) root) r = Ok r')
      in Hr.
    rewrite Hm in Hr. discriminate.
  - destruct (Get_no_slash c rest
                (RedirectHandler (String c rest +:+ "/") 301) r Hne)
      as [m Hm].
    change ((Get (String c rest) (RedirectHandler (String c rest +:+ "/") 301) r
               ≫= fun r1 => Ok (r1, String c rest +:+ "/"))
              ≫= (fun '(r2, path) =>
                    Get (path +:+ "*") (StaticFiles (String c rest) root) r2) = Ok r')
      in Hr.
    rewrite Hm in Hr. discriminate.
Qed.

(** X11: [FileServer] returns normally exactly for a path that begins with
    a slash and holds none of the characters [{], [}] and [*]; for every
    other path, the empty one included, it panics. *)
Theorem FileServer_returns_iff (r : Mux) (path root : string) :
  (exists r', FileServer r path root = Ok r')
  <-> (ContainsAny path "{}*" = false /\ exists rest, path = String "/" rest).
Proof.
  split.
  - intros [r' Hr]. eapply FileServer_ok_path, Hr.
  - intros [EC [rest ->]]. unfold FileServer. rewrite EC.
    destruct (String.eqb (String "/" rest) "/"); [cbn; eauto|].
    destruct (last_char_cons "/" rest) as [l ->].
    destruct (Ascii.eqb l "/"); cbn; eauto.
Qed.

(** X12: the routes of the mux once [FileServer] has returned.  For a
    path with a trailing slash, GET [path*] serves the files.  For any
    other path, GET [path] redirects permanently (301) to [path/] and GET
    [path/*] serves the files.  The files are served with the path as it
    was given stripped from the request; a handler the mux held for one of
    these patterns before is replaced, and every other route is as it
    was. *)
Theorem FileServer_routes (r r' : Mux) (path root : string) :
  FileServer r path root = Ok r' ->
  (last_char path = Some "/"%char ->
   r' !! ("GET", path +:+ "*") = Some (StaticFiles path root)
   /\ forall k, k <> ("GET", path +:+ "*") -> r' !! k = r !! k)
  /\ (last_char path <> Some "/"%char ->
      r' !! ("GET", path) = Some (RedirectHandler (path +:+ "/") 301)
      /\ r' !! ("GET", (path +:+ "/") +:+ "*") = Some (StaticFiles path root)
      /\ forall k, k <> ("GET", path) -> k <> ("GET", (path +:+ "/") +:+ "*") ->
                   r' !! k = r !! k).
Proof.
  intros HF.
  assert (exists rest, path = String "/" rest) as [rest ->].
  { by apply (FileServer_ok_path r r' path root). }
  assert (Hsingle : last_char (String "/" rest) = Some "/"%char ->
            FileServer r (String "/" rest) root
            = Ok (<[("GET", String "/" rest +:+ "*")
                    := StaticFiles (String "/" rest) root]> r)).
  { intros Hl. revert HF. unfold FileServer.
    destruct (ContainsAny (String "/" rest) "{}*"); [discriminate|].
    destruct (String.eqb (String "/" rest) "/"); [done|].
    rewrite Hl. done. }
  assert (Hdouble : last_char (String "/" rest) <> Some "/"%char ->
            FileServer r (String "/" rest) root
            = Ok (<[("GET", (String "/" rest +:+ "/") +:+ "*")
                    := StaticFiles (String "/" rest) root]>
                    (<[("GET", String "/" rest)
                       := RedirectHandler (String "/" rest +:+ "/") 301]> r))).
  { intros Hl. revert HF. unfold FileServer.
    destruct (ContainsAny (String "/" rest) "{}*"); [discriminate|].
    destruct (String.eqb (String "/" rest) "/") eqn:E.
    { apply String.eqb_eq in E. injection E as ->. by destruct Hl. }
    destruct (last_char_cons "/" rest) as [l Hl']. rewrite Hl' in Hl |- *.
    destruct (Ascii.eqb l "/") eqn:El; [|done].
    apply Ascii.eqb_eq in El as ->. by destruct Hl. }
  split.
  - intros Hl. rewrite (Hsingle Hl) in HF. injection HF as <-. split.
    + apply lookup_insert_eq.
    + intros k Hk. by rewrite lookup_insert_ne.
  - intros Hl. rewrite (Hdouble Hl) in HF. injection HF as <-.
    split; [|split].
    + rewrite lookup_insert_ne, lookup_insert_eq; [done|].
      intros [= E]. symmetry in E. revert E. by apply append_ne.
    + apply lookup_insert_eq.
    + intros k Hk1 Hk2. by rewrite !lookup_insert_ne.
Qed.

(** The static files of a front end, mounted at [/static] on a mux that
    already serves that pattern: the earlier handler is gone, and the mux
    holds the two routes of [FileServer] and nothing else. *)
Lemma FileServer_routes_witness :
  let r : Mux := {[ ("GET", "/static") := StaticFiles "/old" "legacy" ]} in
  exists r',
    FileServer r "/static" "files" = Ok r'
    /\ r' !! ("GET", "/static") = Some (RedirectHandler "/static/" 301)
    /\ r' !! ("GET", "/static/*") = Some (StaticFiles "/static" "files")
    /\ size r' = 2.
Proof.
  cbv zeta. eexists. split; [reflexivity|].
  destruct (proj2 (FileServer_routes
                     {[ ("GET", "/static") := StaticFiles "/old" "legacy" ]} _
                     "/static" "files" eq_refl)) as (H1 & H2 & _).
  - discriminate.
  - split; [exact H1|]. split; [exact H2|]. vm_compute. reflexivity.
Defined.

End RouterFacts.

(** ** [NewServer] *)

Module ServerFacts.
Import Server.

Lemma Contains_colon p : Contains (":" +:+ p) ":" = true.
Proof.
  change (":" +:+ p) with (String ":" p). cbn [Contains String.prefix].
  destruct (ascii_dec ":" ":"); [|done]. by destruct p.
Qed.

Lemma seconds_exact sec :
  (-9223372036 <= sec <= 9223372036)%Z -> seconds sec = (sec * 1000000000)%Z.
Proof.
  intros Hsec. unfold seconds, wrap64, Second.
  rewrite Z.mod_small by lia. lia.
Qed.

Section Deps.
Context `{Deps}.

(** What [NewServer] returns, by the two calls that can fail. *)
Lemma NewServer_inv (srv : HTTPServer) :
  NewServer = inl srv ->
  exists db,
    Connect "postgres" (GetString "database_connection") = inl db
    /\ appNew db true = inl (ServerHandler srv)
    /\ Addr srv = (if Contains (GetString "port") ":"
                   then GetString "port" else ":" +:+ GetString "port")
    /\ ReadTimeout srv = seconds (GetInt64 "server_read_timeout_sec")
    /\ WriteTimeout srv = seconds (GetInt64 "server_write_timeout_sec")
    /\ MaxHeaderBytes srv = GetInt "server_write_timeout_sec".
Proof.
  unfold NewServer.
  destruct (Connect "postgres" (GetString "database_connection")) as [db|e]; [|discriminate].
  destruct (appNew db true) as [h|e] eqn:EA; [|discriminate].
  intros [= <-]. by exists db.
Qed.

(** X13: the address [NewServer] listens on always names a port after a
    colon: a configured port with a colon in it (as [localhost:3000]) is
    used as it is, any other gets the colon put in front, which makes the
    server listen on all interfaces. *)
Theorem NewServer_addr (srv : HTTPServer) :
  NewServer = inl srv ->
  Contains (Addr srv) ":" = true
  /\ (Contains (GetString "port") ":" = true -> Addr srv = GetString "port")
  /\ (Contains (GetString "port") ":" = false -> Addr srv = ":" +:+ GetString "port").
Proof.
  intros HN. destruct (NewServer_inv srv HN) as (db & _ & _ & -> & _).
  destruct (Contains (GetString "port") ":") eqn:E.
  - by rewrite E.
  - by rewrite Contains_colon.
Qed.

(** X14: [NewServer] fails exactly when the database connection or the
    construction of the router fails, and hands that error on unchanged;
    no value of the configuration makes it fail, and the router is built
    only on an open connection. *)
Theorem NewServer_error (err : string) :
  NewServer = inr err
  <-> (Connect "postgres" (GetString "database_connection") = inr err
       \/ exists db,
            Connect "postgres" (GetString "database_connection") = inl db
            /\ appNew db true = inr err).
Proof.
  unfold NewServer.
  destruct (Connect "postgres" (GetString "database_connection")) as [db|e].
  - destruct (appNew db true) as [h|e] eqn:EA.
    + split; [discriminate|]. intros [?|(db' & [= <-] & ?)]; congruence.
    + split.
      * intros [= <-]. right. by exists db.
      * intros [?|(db' & [= <-] & ?)]; congruence.
  - split.
    + intros [= <-]. by left.
    + intros [[= <-]|(db' & ? & _)]; done.
Qed.

(** X15: the timeouts of the server.  A configured number of seconds
    between -9223372036 and 9223372036 becomes that many seconds, in
    nanoseconds; outside this range the [int64] product wraps around.
    The limit on the size of the request header, in bytes, is the number
    configured as the write timeout in seconds. *)
Theorem NewServer_timeouts (srv : HTTPServer) :
  NewServer = inl srv ->
  ((-9223372036 <= GetInt64 "server_read_timeout_sec" <= 9223372036)%Z ->
   ReadTimeout srv = (GetInt64 "server_read_timeout_sec" * 1000000000)%Z)
  /\ ((-9223372036 <= GetInt64 "server_write_timeout_sec" <= 9223372036)%Z ->
      WriteTimeout srv = (GetInt64 "server_write_timeout_sec" * 1000000000)%Z)
  /\ (-2 ^ 63 <= ReadTimeout srv < 2 ^ 63)%Z
  /\ (-2 ^ 63 <= WriteTimeout srv < 2 ^ 63)%Z
  /\ MaxHeaderBytes srv = GetInt "server_write_timeout_sec".
Proof.
  intros HN.
  destruct (NewServer_inv srv HN) as (db & _ & _ & _ & -> & -> & ->).
  repeat split; try (by apply seconds_exact);
    unfold seconds, wrap64;
    match goal with |- context [(?a mod 2 ^ 64)%Z] =>
      pose proof (Z.mod_pos_bound a (2 ^ 64)%Z ltac:(lia)) end; lia.
Qed.

End Deps.

(** The server of the test configuration: port 3000, timeouts of 30
    seconds. *)
Lemma NewServer_addr_witness :
  exists srv, NewServer (H := TestDeps) = inl srv /\ Addr srv = ":3000".
Proof.
  eexists. split; [reflexivity|].
  apply (proj2 (proj2 (NewServer_addr (H := TestDeps) _ eq_refl))).
  reflexivity.
Defined.

Lemma NewServer_timeouts_witness :
  exists srv,
    NewServer (H := TestDeps) = inl srv
    /\ ReadTimeout srv = 30000000000%Z /\ MaxHeaderBytes srv = 30%Z.
Proof.
  eexists. split; [reflexivity|]. split.
  - apply (proj1 (NewServer_timeouts (H := TestDeps) _ eq_refl)).
    vm_compute. split; discriminate.
  - reflexivity.
Defined.

End ServerFacts.
